(** * isa-toolkit: the 1976 International Standard Atmosphere and the
      aerodynamic state derived from it

    A shallow embedding of [isa_toolkit/constants.py], [isa_toolkit/isa.py]
    and [isa_toolkit/aerodynamics.py].

    Numbers.  The source computes with Python floats and NumPy float64
    arrays.  The formulas are embedded over the real numbers: [+ - * /] are
    the field operations, [np.sqrt] is [sqrt], [np.exp] is [exp] and the float
    power [x ** y] is [Rpower x y] (its value for a positive base).  This is
    the exact-arithmetic reading of the code; rounding is absent from it.
    Module [Binary64] evaluates the same expressions on IEEE-754 binary64
    numbers, for the operations NumPy rounds correctly ([+ - * /] and
    [sqrt]), where a statement depends on rounding.

    Arrays.  A NumPy array is a shape with its elements in row-major order;
    a Python scalar is kept apart from an array ([value]), as [np.isscalar]
    and Python's own float division tell them apart.

    Errors.  Every [raise] of the source, and the exceptions NumPy and Python
    raise inside the code, are constructors of [error]; a call returns
    [Ok] or [Err]. *)

From Stdlib Require Import String Reals Lra Lia Bool Arith ZArith List.
From Stdlib Require Floats.
Import ListNotations.

Local Open Scope R_scope.

(** ** Errors and the result type *)

Inductive error : Type :=
| OutOfRange       (* isa.py: ValueError "supports 0-32 km geopotential altitude" *)
| InvalidArgument  (* aerodynamics.py: ValueError "Invalid speed_type" *)
| ShapeMismatch    (* NumPy: ValueError "operands could not be broadcast together" *)
| Inhomogeneous    (* NumPy: ValueError, np.array of sequences of different shapes *)
| NotScalar        (* isa.py: ValueError "Cannot convert array of size > 1 to scalar" *)
| ZeroDivision.    (* Python: ZeroDivisionError, float / float with a zero divisor *)

Inductive result (A : Type) : Type :=
| Ok (a : A)
| Err (e : error).

Arguments Ok {A} a.
Arguments Err {A} e.

Definition bind {A B : Type} (m : result A) (k : A -> result B) : result B :=
  match m with
  | Ok a => k a
  | Err e => Err e
  end.

Notation "x <- m ;; k" := (bind m (fun x => k))
  (at level 61, m at next level, right associativity).
Notation "' pat <- m ;; k" := (bind m (fun x => match x with pat => k end))
  (at level 61, pat pattern, m at next level, right associativity).

(** ** constants.py *)

Definition g0 : R := 9.80665.
(** [R] in the source; renamed, [R] being the type of the real numbers. *)
Definition R_gas : R := 287.05287.
Definition gamma_air : R := 1.4.
Definition T0 : R := 288.15.
Definition p0 : R := 101325.0.
Definition rho0 : R := p0 / (R_gas * T0).
Definition a0 : R := Rpower (gamma_air * R_gas * T0) 0.5.
Definition R_EARTH : R := 6356766.0.

(** ** NumPy arrays *)

Record ndarray : Type := mk_ndarray {
  shape : list nat;
  data : list R
}.

(** An [ArrayLike]: a Python number or an array. *)
Inductive value : Type :=
| VFloat (x : R)
| VArr (a : ndarray).

Definition size_of_shape (s : list nat) : nat := fold_right Nat.mul 1%nat s.

(** The invariant of every NumPy array. *)
Definition wf_array (a : ndarray) : Prop :=
  length (data a) = size_of_shape (shape a).

Definition nd_scalar (x : R) : ndarray := mk_ndarray [] [x].

(** [np.asarray(v, dtype=float)] and [np.array(v)]. *)
Definition np_asarray (v : value) : ndarray :=
  match v with
  | VFloat x => nd_scalar x
  | VArr a => a
  end.

(** [np.isscalar]. *)
Definition np_isscalar (v : value) : bool :=
  match v with
  | VFloat _ => true
  | VArr _ => false
  end.

Definition nd_map (f : R -> R) (a : ndarray) : ndarray :=
  mk_ndarray (shape a) (map f (data a)).

Fixpoint zip_with (f : R -> R -> R) (xs ys : list R) : list R :=
  match xs, ys with
  | x :: xs', y :: ys' => f x y :: zip_with f xs' ys'
  | _, _ => []
  end.

(** An operation on two arrays of one shape (no broadcasting involved). *)
Definition nd_map2 (f : R -> R -> R) (a b : ndarray) : ndarray :=
  mk_ndarray (shape a) (zip_with f (data a) (data b)).

Definition size (a : ndarray) : nat := length (data a).

(** [arr.item()] of a one-element array. *)
Definition item (a : ndarray) : R := hd 0 (data a).

(** Comparisons as NumPy's boolean results. *)
Definition Rltb (x y : R) : bool := if Rlt_dec x y then true else false.
Definition Rleb (x y : R) : bool := if Rle_dec x y then true else false.

(** [np.any] of an elementwise test. *)
Definition np_any (m : list bool) : bool := existsb (fun b => b) m.

(** Boolean-mask indexing [a[mask]]. *)
Fixpoint compress (mask : list bool) (xs : list R) : list R :=
  match mask, xs with
  | true :: m, x :: xs' => x :: compress m xs'
  | false :: m, _ :: xs' => compress m xs'
  | _, _ => []
  end.

(** Boolean-mask assignment [a[mask] = vals]: the values go, in order, to the
    positions the mask selects.  NumPy raises when their number differs from
    the number of selected positions; the code only assigns what it computed
    from [a[mask]] itself, and a position left without a value keeps its
    content here. *)
Fixpoint scatter (mask : list bool) (vals old : list R) : list R :=
  match mask, old with
  | true :: m, o :: old' =>
      match vals with
      | v :: vs => v :: scatter m vs old'
      | [] => o :: scatter m [] old'
      end
  | false :: m, o :: old' => o :: scatter m vals old'
  | _, _ => old
  end.

(** *** Broadcasting *)

(** Shapes are compared from their last dimension; [bshape_rev] works on the
    reversed shapes. *)
Fixpoint bshape_rev (a b : list nat) : option (list nat) :=
  match a, b with
  | [], _ => Some b
  | _, [] => Some a
  | x :: a', y :: b' =>
      match bshape_rev a' b' with
      | None => None
      | Some r =>
          if (x =? y)%nat then Some (x :: r)
          else if (x =? 1)%nat then Some (y :: r)
          else if (y =? 1)%nat then Some (x :: r)
          else None
      end
  end.

Definition broadcast_shapes (a b : list nat) : option (list nat) :=
  option_map (@rev nat) (bshape_rev (rev a) (rev b)).

(** [count] consecutive chunks of [k] elements. *)
Fixpoint chunks (k count : nat) (d : list R) : list (list R) :=
  match count with
  | O => []
  | S c => firstn k d :: chunks k c (skipn k d)
  end.

(** The elements of an array of shape [from] laid out at the shape [to] it
    broadcasts to. *)
Fixpoint broadcast_to (to from : list nat) (d : list R) {struct to} : list R :=
  match to with
  | [] => d
  | n :: to' =>
      if (length from <? length to)%nat
      then concat (repeat (broadcast_to to' from d) n)
      else
        match from with
        | [] => d
        | m :: from' =>
            if (m =? n)%nat
            then flat_map (broadcast_to to' from') (chunks (size_of_shape from') m d)
            else concat (repeat (broadcast_to to' from' d) n)
        end
  end.

(** A NumPy binary operation on two arrays. *)
Definition nd_binop (f : R -> R -> R) (a b : ndarray) : result ndarray :=
  match broadcast_shapes (shape a) (shape b) with
  | None => Err ShapeMismatch
  | Some s =>
      Ok (mk_ndarray s
            (zip_with f (broadcast_to s (shape a) (data a))
                        (broadcast_to s (shape b) (data b))))
  end.

(** A binary arithmetic operation as Python dispatches it: on two Python
    floats it is Python's own, and division by zero raises; as soon as one
    operand is a NumPy object it is NumPy's, which broadcasts and never raises
    on a zero divisor. *)
Definition py_binop (f : R -> R -> R) (a b : value) : result value :=
  match a, b with
  | VFloat x, VFloat y => Ok (VFloat (f x y))
  | _, _ => r <- nd_binop f (np_asarray a) (np_asarray b) ;; Ok (VArr r)
  end.

Definition py_div (a b : value) : result value :=
  match a, b with
  | VFloat x, VFloat y =>
      if Req_dec_T y 0 then Err ZeroDivision else Ok (VFloat (x / y))
  | _, _ => r <- nd_binop Rdiv (np_asarray a) (np_asarray b) ;; Ok (VArr r)
  end.

Definition py_mul : value -> value -> result value := py_binop Rmult.
Definition py_add : value -> value -> result value := py_binop Rplus.

(** [np.sqrt]: the result is a NumPy object also for a Python float. *)
Definition np_sqrt (v : value) : value := VArr (nd_map sqrt (np_asarray v)).

(** [x ** 2] on a NumPy object. *)
Definition np_square (v : value) : value :=
  VArr (nd_map (fun x => x ^ 2) (np_asarray v)).

Definition vshape (v : value) : list nat := shape (np_asarray v).

(** ** isa.py *)

Record ISAState : Type := mk_ISAState {
  geometric_altitude : value;
  geopotential_altitude : value;
  temperature : value;
  pressure : value;
  density : value;
  speed_of_sound : value;
  dynamic_viscosity : value;
  kinematic_viscosity : value
}.

(** Indexing [l[i]] and the assignment [l[i] = v] of a one-dimensional
    array. *)
Definition idx (l : list R) (i : nat) : R := nth i l 0.

Fixpoint set_at (i : nat) (v : R) (l : list R) : list R :=
  match l, i with
  | [], _ => []
  | _ :: l', O => v :: l'
  | x :: l', S i' => x :: set_at i' v l'
  end.

(** [np.empty_like]: the content of the new array is unspecified in NumPy;
    it is zero here, and the code overwrites every element before it is
    read. *)
Definition empty_like (l : list R) : list R := map (fun _ => 0) l.

Definition _Hb : list R := [0.0; 11000.0; 20000.0].
Definition _lapserate : list R := [-0.0065; 0.0; 0.0010].

(** The module-level statements that fill [_Tb] and [_pb], in their order. *)
Definition layer_tables : list R * list R :=
  let Tb := empty_like _Hb in
  let pb := empty_like _Hb in
  let Tb := set_at 0 T0 Tb in
  let pb := set_at 0 p0 pb in
  let Tb := set_at 1 (idx Tb 0 + idx _lapserate 0 * (11000.0 - idx _Hb 0)) Tb in
  let pb := set_at 1 (idx pb 0 * Rpower (idx Tb 1 / idx Tb 0)
                                        (- g0 / (R_gas * idx _lapserate 0))) pb in
  let Tb := set_at 2 (idx Tb 1) Tb in
  let pb := set_at 2 (idx pb 1 * exp (- g0 * (20000.0 - 11000.0)
                                      / (R_gas * idx Tb 1))) pb in
  (Tb, pb).

Definition _Tb : list R := fst layer_tables.
Definition _pb : list R := snd layer_tables.

Definition geometric2geopotential (z : value) : value :=
  let z_arr := np_asarray z in
  let H := nd_map (fun x => R_EARTH * x / (R_EARTH + x)) z_arr in
  if np_isscalar z then VFloat (item H) else VArr H.

Definition geopotential2geometric (H : value) : value :=
  let H_arr := np_asarray H in
  let z := nd_map (fun h => R_EARTH * h / (R_EARTH - h)) H_arr in
  if np_isscalar H then VFloat (item z) else VArr z.

(** Gradient layer, on the elements of a one-dimensional array. *)
Definition _isa_gradient (H : list R) (Hb Tb pb L : R) : list R * list R :=
  let T := map (fun h => Tb + L * (h - Hb)) H in
  let p := map (fun t => pb * Rpower (t / Tb) (- g0 / (R_gas * L))) T in
  (T, p).

(** Isothermal layer. *)
Definition _isa_isothermal (H : list R) (Hb Tb pb : R) : list R * list R :=
  let T := map (fun _ => Tb) H in
  let p := map (fun h => pb * exp (- g0 * (h - Hb) / (R_gas * Tb))) H in
  (T, p).

Definition _maybe_scalar (x_in : value) (x_out : ndarray) : result value :=
  let arr := x_out in
  if np_isscalar x_in then
    if (size arr =? 1)%nat then Ok (VFloat (item arr)) else Err NotScalar
  else Ok (VArr arr).

(** [np.select([c0, c1, c2], [0, 1, 2])]: the first condition that holds
    chooses, and the default is 0. *)
Definition np_select (c0 c1 c2 : bool) : nat :=
  if c0 then 0%nat else if c1 then 1%nat else if c2 then 2%nat else 0%nat.

Definition layer_of (h : R) : nat :=
  np_select (Rltb h 11000.0)
            (Rleb 11000.0 h && Rltb h 20000.0)
            (Rleb 20000.0 h).

Definition isa_atmosphere (altitude : value) (geometric : bool) : result ISAState :=
  let H := if geometric then geometric2geopotential altitude
           else VArr (np_asarray altitude) in
  let H_arr := np_asarray H in
  if np_any (map (fun h => Rltb h 0) (data H_arr))
     || np_any (map (fun h => Rltb 32000.0 h) (data H_arr))
  then Err OutOfRange
  else
    let layer := map layer_of (data H_arr) in
    let T := empty_like (data H_arr) in
    let p := empty_like (data H_arr) in
    (* Layer 0: 0-11 km, L = -0.0065 *)
    let idx0 := map (Nat.eqb 0) layer in
    let '(T, p) :=
      if np_any idx0 then
        let '(Tn, pn) := _isa_gradient (compress idx0 (data H_arr))
                           (idx _Hb 0) (idx _Tb 0) (idx _pb 0) (idx _lapserate 0) in
        (scatter idx0 Tn T, scatter idx0 pn p)
      else (T, p) in
    (* Layer 1: 11-20 km, isothermal *)
    let idx1 := map (Nat.eqb 1) layer in
    let '(T, p) :=
      if np_any idx1 then
        let '(Tn, pn) := _isa_isothermal (compress idx1 (data H_arr))
                           (idx _Hb 1) (idx _Tb 1) (idx _pb 1) in
        (scatter idx1 Tn T, scatter idx1 pn p)
      else (T, p) in
    (* Layer 2: 20-32 km, L = +0.001 *)
    let idx2 := map (Nat.eqb 2) layer in
    let '(T, p) :=
      if np_any idx2 then
        let '(Tn, pn) := _isa_gradient (compress idx2 (data H_arr))
                           (idx _Hb 2) (idx _Tb 2) (idx _pb 2) (idx _lapserate 2) in
        (scatter idx2 Tn T, scatter idx2 pn p)
      else (T, p) in
    let T := mk_ndarray (shape H_arr) T in
    let p := mk_ndarray (shape H_arr) p in
    let rho := nd_map2 (fun p t => p / (R_gas * t)) p T in
    let a := nd_map (fun t => sqrt (gamma_air * R_gas * t)) T in
    let mu := nd_map (fun t => 1.458e-6 * Rpower t 1.5 / (t + 110.4)) T in
    let nu := nd_map2 Rdiv mu rho in
    T_out <- _maybe_scalar altitude T ;;
    p_out <- _maybe_scalar altitude p ;;
    rho_out <- _maybe_scalar altitude rho ;;
    a_out <- _maybe_scalar altitude a ;;
    mu_out <- _maybe_scalar altitude mu ;;
    nu_out <- _maybe_scalar altitude nu ;;
    geometric_altitude_out <-
      _maybe_scalar altitude
        (if geometric then np_asarray altitude
         else np_asarray (geopotential2geometric (VArr H_arr))) ;;
    geopotential_altitude_out <- _maybe_scalar altitude H_arr ;;
    Ok (mk_ISAState geometric_altitude_out geopotential_altitude_out
          T_out p_out rho_out a_out mu_out nu_out).

(** [sea_level_atmosphere = isa_atmosphere(0)], evaluated when the module is
    imported. *)
Definition sea_level_atmosphere : result ISAState := isa_atmosphere (VFloat 0) true.

(** ** aerodynamics.py *)

Record AerodynamicState : Type := mk_AerodynamicState {
  TAS : value;
  EAS : value;
  mach : value;
  reynolds : value;
  dynamic_pressure : value;
  stagnation_pressure : value
}.

(** The [atmosphere_state] argument: absent ([None]), one [ISAState], or a
    sequence of them. *)
Inductive atmosphere_arg : Type :=
| AtmNone
| AtmState (s : ISAState)
| AtmList (l : list ISAState).

(** [np.array([...])] of a list of values: they are stacked along a new first
    axis, and must have one shape. *)
Definition np_array_list (vs : list value) : result ndarray :=
  match vs with
  | [] => Ok (mk_ndarray [0%nat] [])
  | v :: rest =>
      if forallb (fun w => if list_eq_dec Nat.eq_dec (vshape w) (vshape v)
                           then true else false) rest
      then Ok (mk_ndarray (length vs :: vshape v)
                 (flat_map (fun w => data (np_asarray w)) vs))
      else Err Inhomogeneous
  end.

Definition allowed_speed_types : list string := ["TAS"; "EAS"; "mach"]%string.

(** The arm the [if / elif / elif / else] chain on [speed_type] takes. *)
Inductive branch : Type := BrTAS | BrEAS | BrMach | BrElse.

Definition speed_branch (speed_type : string) : branch :=
  if (speed_type =? "TAS")%string then BrTAS
  else if (speed_type =? "EAS")%string then BrEAS
  else if (speed_type =? "mach")%string then BrMach
  else BrElse.

Definition aerodynamic_state (speed characteristic_length : value)
    (speed_type : string) (atmosphere_state : atmosphere_arg)
    : result AerodynamicState :=
  (* the import of isa_toolkit.isa computes sea_level_atmosphere *)
  sea_level <- sea_level_atmosphere ;;
  if negb (existsb (String.eqb speed_type) allowed_speed_types)
  then Err InvalidArgument
  else
    '(rho, sos, mu, p) <-
      match atmosphere_state with
      | AtmNone =>
          Ok (density sea_level, speed_of_sound sea_level,
              dynamic_viscosity sea_level, pressure sea_level)
      | AtmState s =>
          Ok (density s, speed_of_sound s, dynamic_viscosity s, pressure s)
      | AtmList l =>
          rho <- np_array_list (map density l) ;;
          sos <- np_array_list (map speed_of_sound l) ;;
          mu <- np_array_list (map dynamic_viscosity l) ;;
          p <- np_array_list (map pressure l) ;;
          Ok (VArr rho, VArr sos, VArr mu, VArr p)
      end ;;
    let rho0 := density sea_level in
    let speed_arr := VArr (np_asarray speed) in
    let char_len_arr := VArr (np_asarray characteristic_length) in
    '(TAS, EAS) <-
      match speed_branch speed_type with
      | BrTAS =>
          let TAS := speed_arr in
          r <- py_div rho rho0 ;;
          EAS <- py_mul TAS (np_sqrt r) ;;
          Ok (TAS, EAS)
      | BrEAS =>
          let EAS := speed_arr in
          r <- py_div rho0 rho ;;
          TAS <- py_mul EAS (np_sqrt r) ;;
          Ok (TAS, EAS)
      | BrMach =>
          let mach := speed_arr in
          TAS <- py_mul mach sos ;;
          r <- py_div rho rho0 ;;
          EAS <- py_mul TAS (np_sqrt r) ;;
          Ok (TAS, EAS)
      | BrElse =>
          Ok (VArr (mk_ndarray [1%nat] [0]), VArr (mk_ndarray [1%nat] [0]))
      end ;;
    mach <- py_div TAS sos ;;
    t1 <- py_mul TAS rho ;;
    t2 <- py_mul t1 char_len_arr ;;
    reynolds <- py_div t2 mu ;;
    h <- py_mul (VFloat 0.5) rho ;;
    dynamic_pressure <- py_mul h (np_square TAS) ;;
    stagnation_pressure <- py_add dynamic_pressure p ;;
    Ok (mk_AerodynamicState TAS EAS mach reynolds dynamic_pressure
          stagnation_pressure).

(** ** The code on binary64 numbers

    Python's [+ - * /] on floats and [np.sqrt] are the IEEE-754 binary64
    operations, which the primitive floats implement bit for bit.  The float
    power [**] comes from the platform's C library and is a parameter
    ([pow]) here. *)

Module Binary64.
Import Floats.
Local Open Scope float_scope.
#[local] Set Warnings "-inexact-float".

Definition g0 : float := 9.80665.
Definition R_gas : float := 287.05287.
Definition T0 : float := 288.15.
Definition p0 : float := 101325.0.
Definition R_EARTH : float := 6356766.0.

(** One element of [geometric2geopotential] and of [geopotential2geometric]. *)
Definition geometric2geopotential (z : float) : float :=
  R_EARTH * z / (R_EARTH + z).

Definition geopotential2geometric (H : float) : float :=
  R_EARTH * H / (R_EARTH - H).

(** One element of [_isa_gradient]. *)
Definition _isa_gradient (pow : float -> float -> float)
    (H Hb Tb pb L : float) : float * float :=
  let T := Tb + L * (H - Hb) in
  let p := pb * pow (T / Tb) (- g0 / (R_gas * L)) in
  (T, p).

(** One element of [_isa_isothermal]; [exp] is the C library's, a parameter
    as [pow] is. *)
Definition _isa_isothermal (exp : float -> float)
    (H Hb Tb pb : float) : float * float :=
  let T := Tb in
  let p := pb * exp (- g0 * (H - Hb) / (R_gas * Tb)) in
  (T, p).

(** The layer table. *)
Definition _Tb1 : float := T0 + (-0.0065) * (11000.0 - 0.0).
Definition _pb1 (pow : float -> float -> float) : float :=
  p0 * pow (_Tb1 / T0) (- g0 / (R_gas * (-0.0065))).
Definition _Tb2 : float := _Tb1.
Definition _pb2 (pow : float -> float -> float) (exp : float -> float) : float :=
  _pb1 pow * exp (- g0 * (20000.0 - 11000.0) / (R_gas * _Tb1)).

(** Temperature and pressure of [isa_atmosphere] for one element [H] of the
    geopotential altitude: [None] when the range check refuses it. *)
Definition isa_point (pow : float -> float -> float) (exp : float -> float)
    (H : float) : option (float * float) :=
  if (H <? 0) || (32000.0 <? H) then None
  else
    Some (match np_select (H <? 11000.0)
                          ((11000.0 <=? H) && (H <? 20000.0))
                          (20000.0 <=? H) with
          | 0%nat => _isa_gradient pow H 0.0 T0 p0 (-0.0065)
          | 1%nat => _isa_isothermal exp H 11000.0 _Tb1 (_pb1 pow)
          | _ => _isa_gradient pow H 20000.0 _Tb2 (_pb2 pow exp) 0.0010
          end).

(** The density of the sea-level state, [isa_atmosphere(0).density]. *)
Definition sea_level_density (pow : float -> float -> float)
    (exp : float -> float) : option float :=
  match isa_point pow exp (geometric2geopotential 0) with
  | Some (T, p) => Some (p / (R_gas * T))
  | None => None
  end.

(** TAS to EAS, and EAS back to TAS, at density [rho] and sea-level density
    [rho0]. *)
Definition tas_to_eas (rho0 rho tas : float) : float := tas * sqrt (rho / rho0).
Definition eas_to_tas (rho0 rho eas : float) : float := eas * sqrt (rho0 / rho).

End Binary64.

(** ** The computation of one element

    What the masked, layer by layer evaluation of [isa_atmosphere] computes
    for the element of geopotential altitude [h]; the lemmas below derive it
    from [isa_atmosphere]. *)

Definition point_T (h : R) : R :=
  match layer_of h with
  | 0%nat => idx _Tb 0 + idx _lapserate 0 * (h - idx _Hb 0)
  | 1%nat => idx _Tb 1
  | _ => idx _Tb 2 + idx _lapserate 2 * (h - idx _Hb 2)
  end.

Definition point_p (h : R) : R :=
  match layer_of h with
  | 0%nat =>
      idx _pb 0 * Rpower ((idx _Tb 0 + idx _lapserate 0 * (h - idx _Hb 0))
                          / idx _Tb 0)
                         (- g0 / (R_gas * idx _lapserate 0))
  | 1%nat => idx _pb 1 * exp (- g0 * (h - idx _Hb 1) / (R_gas * idx _Tb 1))
  | _ =>
      idx _pb 2 * Rpower ((idx _Tb 2 + idx _lapserate 2 * (h - idx _Hb 2))
                          / idx _Tb 2)
                         (- g0 / (R_gas * idx _lapserate 2))
  end.

Definition point_rho (h : R) : R := point_p h / (R_gas * point_T h).
Definition point_a (h : R) : R := sqrt (gamma_air * R_gas * point_T h).
Definition point_mu (h : R) : R :=
  1.458e-6 * Rpower (point_T h) 1.5 / (point_T h + 110.4).
Definition point_nu (h : R) : R := point_mu h / point_rho h.

(** The geopotential and the geometric altitude of an input element. *)
Definition H_of (geometric : bool) (x : R) : R :=
  if geometric then R_EARTH * x / (R_EARTH + x) else x.

Definition z_of (geometric : bool) (x : R) : R :=
  if geometric then x else R_EARTH * x / (R_EARTH - x).

(** The eight fields of an [ISAState], in the order of the record. *)
Definition fields : list (ISAState -> value) :=
  [geometric_altitude; geopotential_altitude; temperature; pressure; density;
   speed_of_sound; dynamic_viscosity; kinematic_viscosity].

(** The [i]-th element of an array field, and the number in a scalar field. *)
Definition elem_of (v : value) (i : nat) : option R :=
  match v with
  | VArr a => nth_error (data a) i
  | VFloat _ => None
  end.

Definition scalar_of (v : value) : option R :=
  match v with
  | VFloat x => Some x
  | VArr _ => None
  end.

Definition in_range (h : R) : Prop := 0 <= h <= 32000.

(** A function applied to a scalar or to every element of an array. *)
Definition vmap (f : R -> R) (v : value) : value :=
  match v with
  | VFloat x => VFloat (f x)
  | VArr a => VArr (nd_map f a)
  end.

(** The state whose every field is the one-element computation applied to
    the input. *)
Definition point_state (g : bool) (altitude : value) : ISAState :=
  mk_ISAState
    (vmap (z_of g) altitude)
    (vmap (H_of g) altitude)
    (vmap (fun x => point_T (H_of g x)) altitude)
    (vmap (fun x => point_p (H_of g x)) altitude)
    (vmap (fun x => point_rho (H_of g x)) altitude)
    (vmap (fun x => point_a (H_of g x)) altitude)
    (vmap (fun x => point_mu (H_of g x)) altitude)
    (vmap (fun x => point_nu (H_of g x)) altitude).

(** The range check of [isa_atmosphere] on the geopotential altitudes. *)
Definition range_check (hs : list R) : bool :=
  np_any (map (fun h => Rltb h 0) hs)
  || np_any (map (fun h => Rltb 32000.0 h) hs).

(** The geopotential altitudes [isa_atmosphere] checks and evaluates: the
    elements of its [H_arr]. *)
Definition geopotential_elements (altitude : value) (geometric : bool) : list R :=
  data (np_asarray (if geometric then geometric2geopotential altitude
                    else VArr (np_asarray altitude))).

(** The three layers in closed form, each as a function on all altitudes. *)
Definition T_low (h : R) : R := T0 + -0.0065 * h.
Definition p_low (h : R) : R :=
  p0 * Rpower (1 + (-0.0065 / T0) * h) (g0 / (R_gas * 0.0065)).
Definition T_mid (h : R) : R := idx _Tb 1.
Definition p_mid (h : R) : R :=
  idx _pb 1 * exp (g0 * 11000 / (R_gas * idx _Tb 1)
                   + (- g0 / (R_gas * idx _Tb 1)) * h).
Definition T_high (h : R) : R := (idx _Tb 2 - 20) + 0.001 * h.
Definition p_high (h : R) : R :=
  idx _pb 2 * Rpower ((1 - 20 / idx _Tb 2) + (0.001 / idx _Tb 2) * h)
                     (- g0 / (R_gas * 0.001)).


(** The temperature and the pressure the query returns for a scalar
    geopotential altitude. *)
Definition query_T (H : R) : option R :=
  match isa_atmosphere (VFloat H) false with
  | Ok s => scalar_of (temperature s)
  | Err _ => None
  end.

Definition query_p (H : R) : option R :=
  match isa_atmosphere (VFloat H) false with
  | Ok s => scalar_of (pressure s)
  | Err _ => None
  end.

(** The state of altitude 0, which [sea_level_atmosphere] evaluates to. *)
Definition sea_level : ISAState := point_state true (VFloat 0).

(** A result that is not the [InvalidArgument] error. *)
Definition not_invalid {A : Type} (r : result A) : Prop := r <> Err InvalidArgument.

(** The four fields of an atmosphere state that [aerodynamic_state] reads
    have the shape [sa]. *)
Definition atm_shape (s : ISAState) (sa : list nat) : Prop :=
  vshape (density s) = sa /\ vshape (speed_of_sound s) = sa
  /\ vshape (dynamic_viscosity s) = sa /\ vshape (pressure s) = sa.


(** * Proofs *)

(** ** Facts on the layer table *)

Lemma Hb_vals : idx _Hb 0 = 0 /\ idx _Hb 1 = 11000 /\ idx _Hb 2 = 20000.
Proof. cbn. lra. Qed.

Lemma lapserate_vals :
  idx _lapserate 0 = -0.0065 /\ idx _lapserate 1 = 0 /\ idx _lapserate 2 = 0.001.
Proof. cbn. lra. Qed.

Lemma Tb_0 : idx _Tb 0 = T0.
Proof. reflexivity. Qed.

Lemma pb_0 : idx _pb 0 = p0.
Proof. reflexivity. Qed.

Lemma Tb_1 : idx _Tb 1 = 216.65.
Proof. cbn. unfold T0. lra. Qed.

Lemma Tb_2 : idx _Tb 2 = 216.65.
Proof. cbn. unfold T0. lra. Qed.

Lemma pb_1 :
  idx _pb 1 = p0 * Rpower (idx _Tb 1 / T0) (- g0 / (R_gas * idx _lapserate 0)).
Proof. reflexivity. Qed.

Lemma pb_2 :
  idx _pb 2 = idx _pb 1 * exp (- g0 * (20000 - 11000) / (R_gas * idx _Tb 1)).
Proof. cbn. f_equal. f_equal. lra. Qed.

(** ** Masked evaluation is evaluation element by element *)

Lemma scatter_no_true (m : list bool) (vals old : list R) :
  np_any m = false -> scatter m vals old = old.
Proof.
  revert vals old; induction m as [|b m IH]; intros vals old Hm; [reflexivity|].
  destruct b; [discriminate|].
  destruct old as [|o old]; [reflexivity|].
  cbn [scatter]. f_equal. apply IH. exact Hm.
Qed.

Lemma masked_pass (c : R -> bool) (f g : R -> R) (hs : list R) :
  scatter (map c hs) (map f (compress (map c hs) hs)) (map g hs)
  = map (fun h => if c h then f h else g h) hs.
Proof.
  induction hs as [|h hs IH]; [reflexivity|].
  cbn [map compress scatter]. destruct (c h); cbn [map scatter]; now rewrite IH.
Qed.

Lemma guarded_pass (c : R -> bool) (f g : R -> R) (hs : list R) :
  (if np_any (map c hs)
   then scatter (map c hs) (map f (compress (map c hs) hs)) (map g hs)
   else map g hs)
  = map (fun h => if c h then f h else g h) hs.
Proof.
  destruct (np_any (map c hs)) eqn:E.
  - apply masked_pass.
  - rewrite <- masked_pass. symmetry. now apply scatter_no_true.
Qed.

Lemma if_pair {A B : Type} (b : bool) (x1 x2 : A) (y1 y2 : B) :
  (if b then (x1, y1) else (x2, y2)) = (if b then x1 else x2, if b then y1 else y2).
Proof. now destruct b. Qed.

Lemma zip_with_map (f : R -> R -> R) (g h : R -> R) (xs : list R) :
  zip_with f (map g xs) (map h xs) = map (fun x => f (g x) (h x)) xs.
Proof. induction xs; cbn; congruence. Qed.

Lemma layer_of_cases h : layer_of h = 0%nat \/ layer_of h = 1%nat \/ layer_of h = 2%nat.
Proof.
  unfold layer_of, np_select.
  destruct (Rltb h 11000.0); [now left|].
  destruct (Rleb 11000.0 h && Rltb h 20000.0); [now (right; left)|].
  destruct (Rleb 20000.0 h); [now (right; right)| now left].
Qed.

Lemma maybe_scalar_vmap (f : R -> R) (altitude : value) :
  _maybe_scalar altitude
    (mk_ndarray (shape (np_asarray altitude))
       (map f (data (np_asarray altitude))))
  = Ok (vmap f altitude).
Proof. destruct altitude; reflexivity. Qed.

Lemma maybe_scalar_eta (altitude : value) :
  _maybe_scalar altitude (np_asarray altitude) = Ok altitude.
Proof. destruct altitude as [x|a]; reflexivity. Qed.

Lemma vmap_z_true (altitude : value) : vmap (z_of true) altitude = altitude.
Proof.
  destruct altitude as [x|[s d]]; [reflexivity|].
  cbn. unfold nd_map. cbn. now rewrite map_id.
Qed.

Lemma three_passes (hs : list R) (f0 f1 f2 : R -> R) :
  map (fun h => if (2 =? layer_of h)%nat then f2 h
                else if (1 =? layer_of h)%nat then f1 h
                else if (0 =? layer_of h)%nat then f0 h else 0) hs
  = map (fun h => match layer_of h with
                  | 0%nat => f0 h | 1%nat => f1 h | _ => f2 h end) hs.
Proof.
  apply map_ext. intros h.
  destruct (layer_of_cases h) as [E|[E|E]]; rewrite E; reflexivity.
Qed.

Lemma geopotential_data (altitude : value) (g : bool) :
  np_asarray (if g then geometric2geopotential altitude
              else VArr (np_asarray altitude))
  = nd_map (H_of g) (np_asarray altitude).
Proof.
  destruct g, altitude as [x|a]; cbn; try reflexivity.
  unfold nd_map. rewrite map_id. now destruct a.
Qed.

Lemma isa_atmosphere_eq (altitude : value) (g : bool) :
  isa_atmosphere altitude g =
  if range_check (map (H_of g) (data (np_asarray altitude)))
  then Err OutOfRange
  else Ok (point_state g altitude).
Proof.
  unfold isa_atmosphere.
  rewrite geopotential_data.
  cbn [data nd_map shape].
  unfold range_check.
  set (hs := map (H_of g) (data (np_asarray altitude))).
  destruct (np_any (map (fun h => Rltb h 0) hs)
            || np_any (map (fun h => Rltb 32000.0 h) hs)); [reflexivity|].
  unfold _isa_gradient, _isa_isothermal, empty_like.
  cbv beta iota zeta.
  rewrite !map_map, !if_pair.
  rewrite !(guarded_pass (fun h => (0 =? layer_of h)%nat)).
  rewrite !(guarded_pass (fun h => (1 =? layer_of h)%nat)).
  rewrite !(guarded_pass (fun h => (2 =? layer_of h)%nat)).
  rewrite !three_passes.
  unfold nd_map2, nd_map. cbn [data shape].
  subst hs.
  repeat (rewrite map_map || rewrite zip_with_map).
  rewrite !maybe_scalar_vmap. cbn [bind].
  destruct g.
  - rewrite (maybe_scalar_eta altitude). cbn [bind].
    unfold point_state. rewrite vmap_z_true. reflexivity.
  - cbn [geopotential2geometric np_isscalar np_asarray H_of nd_map data shape].
    unfold nd_map. cbn [data shape].
    rewrite map_map, maybe_scalar_vmap. cbn [bind]. reflexivity.
Qed.

(** ** The range check *)

Lemma Rltb_true x y : Rltb x y = true <-> x < y.
Proof. unfold Rltb. destruct (Rlt_dec x y); split; intros; easy. Qed.

Lemma Rltb_false x y : Rltb x y = false <-> y <= x.
Proof. unfold Rltb. destruct (Rlt_dec x y); split; intros; try easy; lra. Qed.

Lemma Rleb_true x y : Rleb x y = true <-> x <= y.
Proof. unfold Rleb. destruct (Rle_dec x y); split; intros; easy. Qed.

Lemma Rleb_false x y : Rleb x y = false <-> y < x.
Proof. unfold Rleb. destruct (Rle_dec x y); split; intros; try easy; lra. Qed.

Lemma np_any_map_true (c : R -> bool) (hs : list R) :
  np_any (map c hs) = true <-> Exists (fun h => c h = true) hs.
Proof.
  unfold np_any. rewrite existsb_exists, Exists_exists. split.
  - intros [b [Hin Hb]]. apply in_map_iff in Hin as [h [E Hin]]. subst b. eauto.
  - intros [h [Hin Hc]]. exists (c h). split; [now apply in_map|exact Hc].
Qed.

Lemma range_check_true (hs : list R) :
  range_check hs = true <-> Exists (fun h => h < 0 \/ 32000 < h) hs.
Proof.
  unfold range_check. rewrite orb_true_iff, !np_any_map_true, !Exists_exists.
  split.
  - intros [[h [Hin Hc]]|[h [Hin Hc]]]; exists h; (split; [exact Hin|]);
      apply Rltb_true in Hc; lra.
  - intros [h [Hin [Hc|Hc]]]; [left|right]; exists h; (split; [exact Hin|]);
      apply Rltb_true; lra.
Qed.

Lemma range_check_false (hs : list R) :
  range_check hs = false <-> Forall in_range hs.
Proof.
  split.
  - intros Hf. apply Forall_forall. intros h Hin.
    destruct (Rlt_dec h 0) as [Hlt|Hge].
    + assert (range_check hs = true) by
        (apply range_check_true, Exists_exists; exists h; split; [easy|now left]).
      congruence.
    + destruct (Rlt_dec 32000 h) as [Hgt|Hle].
      * assert (range_check hs = true) by
          (apply range_check_true, Exists_exists; exists h; split; [easy|now right]).
        congruence.
      * unfold in_range. lra.
  - intros Hall. destruct (range_check hs) eqn:E; [|reflexivity].
    apply range_check_true, Exists_exists in E as [h [Hin Hbad]].
    rewrite Forall_forall in Hall. specialize (Hall h Hin). unfold in_range in Hall. lra.
Qed.

Lemma geopotential_elements_eq (altitude : value) (g : bool) :
  geopotential_elements altitude g = map (H_of g) (data (np_asarray altitude)).
Proof. unfold geopotential_elements. now rewrite geopotential_data. Qed.

(** C1.  Whenever an element of the geopotential altitude (the input itself,
    or its conversion from geometric altitude) is below 0 or above 32000 m,
    [isa_atmosphere] fails as a whole with [OutOfRange] and returns no state;
    whenever all elements are within [0, 32000] it raises no error and
    returns a state. *)
Theorem isa_atmosphere_range (altitude : value) (geometric : bool) :
  (Exists (fun h => h < 0 \/ 32000 < h) (geopotential_elements altitude geometric)
   -> isa_atmosphere altitude geometric = Err OutOfRange)
  /\ (Forall (fun h => 0 <= h <= 32000) (geopotential_elements altitude geometric)
      -> exists st, isa_atmosphere altitude geometric = Ok st).
Proof.
  rewrite isa_atmosphere_eq, geopotential_elements_eq. split.
  - intros Hbad. apply range_check_true in Hbad. now rewrite Hbad.
  - intros Hall. apply range_check_false in Hall. rewrite Hall. eauto.
Qed.

(** An array with one element out of range is refused as a whole, and an
    array within the range is accepted. *)
Lemma isa_atmosphere_range_witness :
  isa_atmosphere (VArr (mk_ndarray [3%nat] [0; 5000; 32000.5])) false = Err OutOfRange
  /\ exists st, isa_atmosphere (VArr (mk_ndarray [3%nat] [0; 5000; 32000])) false = Ok st.
Proof.
  split.
  - apply (isa_atmosphere_range (VArr (mk_ndarray [3%nat] [0; 5000; 32000.5])) false).
    cbn. apply Exists_cons_tl, Exists_cons_tl, Exists_cons_hd. lra.
  - apply (isa_atmosphere_range (VArr (mk_ndarray [3%nat] [0; 5000; 32000])) false).
    cbn. repeat constructor; lra.
Defined.

(** ** Scalar and batched queries *)

Lemma isa_atmosphere_scalar (x : R) (g : bool) :
  in_range (H_of g x) ->
  isa_atmosphere (VFloat x) g = Ok (point_state g (VFloat x)).
Proof.
  intros Hx. rewrite isa_atmosphere_eq.
  assert (E : range_check (map (H_of g) (data (np_asarray (VFloat x)))) = false).
  { apply range_check_false. cbn. now constructor. }
  now rewrite E.
Qed.

Lemma isa_atmosphere_array (a : ndarray) (g : bool) :
  Forall in_range (map (H_of g) (data a)) ->
  isa_atmosphere (VArr a) g = Ok (point_state g (VArr a)).
Proof.
  intros Ha. rewrite isa_atmosphere_eq.
  apply range_check_false in Ha. cbn [np_asarray]. now rewrite Ha.
Qed.

Lemma elem_of_vmap (f : R -> R) (a : ndarray) (i : nat) (x : R) :
  nth_error (data a) i = Some x ->
  elem_of (vmap f (VArr a)) i = scalar_of (vmap f (VFloat x)).
Proof. intros Hi. cbn. now apply map_nth_error. Qed.

(** C5.  On an array whose elements are all in range, [isa_atmosphere]
    returns a state whose eight fields are arrays of the shape of the input,
    and the element of each field at a position is the field of the scalar
    query at the input's element there; on a scalar in range, every field is
    a scalar. *)
Theorem batched_equals_scalar (geometric : bool) :
  (forall a : ndarray,
     Forall in_range (geopotential_elements (VArr a) geometric) ->
     exists st,
       isa_atmosphere (VArr a) geometric = Ok st
       /\ Forall (fun F => np_isscalar (F st) = false
                           /\ vshape (F st) = shape a
                           /\ length (data (np_asarray (F st))) = length (data a))
                 fields
       /\ forall i x,
            nth_error (data a) i = Some x ->
            exists s,
              isa_atmosphere (VFloat x) geometric = Ok s
              /\ Forall (fun F => np_isscalar (F s) = true
                                  /\ elem_of (F st) i = scalar_of (F s))
                        fields)
  /\ (forall x : R,
        in_range (H_of geometric x) ->
        exists s,
          isa_atmosphere (VFloat x) geometric = Ok s
          /\ Forall (fun F => np_isscalar (F s) = true) fields).
Proof.
  split.
  - intros a Ha. rewrite geopotential_elements_eq in Ha. cbn [np_asarray] in Ha.
    exists (point_state geometric (VArr a)). split; [now apply isa_atmosphere_array|].
    split.
    + unfold fields. repeat constructor; cbn; apply length_map.
    + intros i x Hi.
      assert (Hx : in_range (H_of geometric x)).
      { rewrite Forall_forall in Ha. apply Ha, in_map, (nth_error_In _ _ Hi). }
      exists (point_state geometric (VFloat x)).
      split; [now apply isa_atmosphere_scalar|].
      unfold fields, point_state.
      repeat constructor; cbn [geometric_altitude geopotential_altitude temperature
        pressure density speed_of_sound dynamic_viscosity kinematic_viscosity];
        now apply elem_of_vmap.
  - intros x Hx. exists (point_state geometric (VFloat x)).
    split; [now apply isa_atmosphere_scalar|].
    unfold fields. repeat constructor.
Qed.

Lemma batched_equals_scalar_witness :
  exists st,
    isa_atmosphere (VArr (mk_ndarray [3%nat] [0; 5000; 10000])) true = Ok st
    /\ Forall (fun F => vshape (F st) = [3%nat]) fields.
Proof.
  destruct (proj1 (batched_equals_scalar true) (mk_ndarray [3%nat] [0; 5000; 10000]))
    as [st [E [Hs _]]].
  - cbn. unfold in_range, R_EARTH. repeat constructor; lra.
  - exists st. split; [exact E|].
    eapply Forall_impl; [|exact Hs]. cbn. intros F H. apply H.
Defined.

(** ** Layer selection *)

Lemma layer_of_low h : h < 11000 -> layer_of h = 0%nat.
Proof.
  intros Hh. unfold layer_of, np_select.
  assert (E : Rltb h 11000.0 = true) by (apply Rltb_true; lra).
  now rewrite E.
Qed.

Lemma layer_of_mid h : 11000 <= h < 20000 -> layer_of h = 1%nat.
Proof.
  intros Hh. unfold layer_of, np_select.
  assert (E1 : Rltb h 11000.0 = false) by (apply Rltb_false; lra).
  assert (E2 : Rleb 11000.0 h = true) by (apply Rleb_true; lra).
  assert (E3 : Rltb h 20000.0 = true) by (apply Rltb_true; lra).
  now rewrite E1, E2, E3.
Qed.

Lemma layer_of_high h : 20000 <= h -> layer_of h = 2%nat.
Proof.
  intros Hh. unfold layer_of, np_select.
  assert (E1 : Rltb h 11000.0 = false) by (apply Rltb_false; lra).
  assert (E3 : Rltb h 20000.0 = false) by (apply Rltb_false; lra).
  assert (E4 : Rleb 20000.0 h = true) by (apply Rleb_true; lra).
  now rewrite E1, E3, E4, andb_false_r.
Qed.

Lemma Rpower_one (y : R) : Rpower 1 y = 1.
Proof. unfold Rpower. now rewrite ln_1, Rmult_0_r, exp_0. Qed.

(** The first layer in closed form. *)
Lemma point_T_low h : h < 11000 -> point_T h = T0 - 0.0065 * h.
Proof.
  intros Hh. unfold point_T. rewrite (layer_of_low h Hh).
  rewrite Tb_0. cbn. lra.
Qed.

Lemma point_p_low h :
  h < 11000 ->
  point_p h = p0 * Rpower ((T0 - 0.0065 * h) / T0) (g0 / (R_gas * 0.0065)).
Proof.
  intros Hh. unfold point_p. rewrite (layer_of_low h Hh).
  rewrite Tb_0, pb_0. cbn. f_equal. f_equal.
  - f_equal. lra.
  - unfold g0, R_gas. lra.
Qed.

(** ** Continuity across the layer boundaries *)

Lemma cont_affine (a b x : R) : continuity_pt (fun h => a + b * h) x.
Proof. reg. Qed.

Lemma cont_exp_affine (k a b x : R) : continuity_pt (fun h => k * exp (a + b * h)) x.
Proof. reg. Qed.

Lemma cont_power_affine (k a b c x : R) :
  0 < a + b * x -> continuity_pt (fun h => k * Rpower (a + b * h) c) x.
Proof.
  intros Hpos.
  apply derivable_continuous_pt.
  change (derivable_pt (mult_fct (fct_cte k) (comp (fun u => Rpower u c) (fun h => a + b * h))) x).
  apply derivable_pt_mult; [apply derivable_pt_const|].
  apply derivable_pt_comp.
  - reg.
  - exists (c * Rpower (a + b * x) (c - 1)). now apply derivable_pt_lim_power.
Qed.

(** Two functions that agree with [f] on either side of [b], are continuous
    at [b] and meet there make [f] continuous at [b]. *)
Lemma glued_limit (f fl fr : R -> R) (b lo hi : R) :
  lo < b < hi ->
  (forall h, lo <= h < b -> f h = fl h) ->
  (forall h, b <= h <= hi -> f h = fr h) ->
  fl b = fr b ->
  continuity_pt fl b -> continuity_pt fr b ->
  forall eps, 0 < eps ->
  exists delta, 0 < delta /\ delta <= b - lo /\ delta <= hi - b /\
    forall h, Rabs (h - b) < delta -> Rabs (f h - f b) < eps.
Proof.
  intros Hb Hl Hr Hmeet Cl Cr eps Heps.
  destruct (Cl eps Heps) as [dl [Hdl Hl']].
  destruct (Cr eps Heps) as [dr [Hdr Hr']].
  exists (Rmin (Rmin dl dr) (Rmin (b - lo) (hi - b))).
  assert (Hm1 := Rmin_l dl dr). assert (Hm2 := Rmin_r dl dr).
  assert (Hm3 := Rmin_l (b - lo) (hi - b)). assert (Hm4 := Rmin_r (b - lo) (hi - b)).
  assert (Hm5 := Rmin_l (Rmin dl dr) (Rmin (b - lo) (hi - b))).
  assert (Hm6 := Rmin_r (Rmin dl dr) (Rmin (b - lo) (hi - b))).
  split; [repeat apply Rmin_glb_lt; lra|].
  split; [lra|]. split; [lra|].
  intros h Hh.
  assert (Hh' : - Rmin (Rmin dl dr) (Rmin (b - lo) (hi - b)) < h - b
                < Rmin (Rmin dl dr) (Rmin (b - lo) (hi - b))).
  { split; [apply Ropp_lt_cancel; rewrite Ropp_involutive|];
      (eapply Rle_lt_trans; [|exact Hh]).
    - rewrite <- Rabs_Ropp. apply Rle_abs.
    - apply Rle_abs. }
  rewrite (Hr b) by lra.
  destruct (Rlt_dec h b) as [Hlt|Hge].
  - rewrite (Hl h) by lra. rewrite <- Hmeet.
    apply (Hl' h). split; [split; [exact I|lra]|].
    unfold R_dist. eapply Rlt_le_trans; [exact Hh|lra].
  - destruct (Req_dec h b) as [->|Hne].
    + rewrite (Hr b) by lra. rewrite Rminus_diag, Rabs_R0. exact Heps.
    + rewrite (Hr h) by lra.
      apply (Hr' h). split; [split; [exact I|congruence]|].
      unfold R_dist. eapply Rlt_le_trans; [exact Hh|lra].
Qed.

(** ** The three layers in closed form *)

Lemma point_low h : h < 11000 -> point_T h = T_low h /\ point_p h = p_low h.
Proof.
  intros Hh. unfold point_T, point_p, T_low, p_low. rewrite (layer_of_low h Hh).
  rewrite Tb_0, pb_0. cbn [idx nth _Hb _lapserate]. split; [lra|].
  f_equal. f_equal; unfold T0, g0, R_gas; lra.
Qed.

Lemma point_mid h : 11000 <= h < 20000 -> point_T h = T_mid h /\ point_p h = p_mid h.
Proof.
  intros Hh. unfold point_T, point_p, T_mid, p_mid. rewrite (layer_of_mid h Hh).
  split; [reflexivity|]. f_equal. f_equal.
  cbn [idx nth _Hb]. rewrite Tb_1. unfold g0, R_gas. lra.
Qed.

Lemma point_high h : 20000 <= h -> point_T h = T_high h /\ point_p h = p_high h.
Proof.
  intros Hh. unfold point_T, point_p, T_high, p_high. rewrite (layer_of_high h Hh).
  cbn [idx nth _Hb _lapserate]. split; [lra|].
  f_equal. f_equal; rewrite ?Tb_2; unfold g0, R_gas; lra.
Qed.

(** Each layer's base values are the layer below evaluated at the boundary. *)
Lemma low_meets_mid : T_low 11000 = T_mid 11000 /\ p_low 11000 = p_mid 11000.
Proof.
  unfold T_low, T_mid, p_low, p_mid. rewrite Tb_1. split; [unfold T0; lra|].
  replace (g0 * 11000 / (R_gas * 216.65) + - g0 / (R_gas * 216.65) * 11000) with 0
    by (unfold g0, R_gas; lra).
  rewrite exp_0, Rmult_1_r, pb_1, Tb_1.
  f_equal. f_equal; cbn [idx nth _lapserate]; unfold T0, g0, R_gas; lra.
Qed.

Lemma mid_meets_high : T_mid 20000 = T_high 20000 /\ p_mid 20000 = p_high 20000.
Proof.
  unfold T_mid, T_high, p_mid, p_high. rewrite Tb_1, Tb_2. split; [lra|].
  replace (1 - 20 / 216.65 + 0.001 / 216.65 * 20000) with 1 by lra.
  rewrite Rpower_one, Rmult_1_r, pb_2, Tb_1. f_equal. f_equal.
  unfold g0, R_gas. lra.
Qed.

Lemma pb_pos : 0 < idx _pb 0 /\ 0 < idx _pb 1 /\ 0 < idx _pb 2.
Proof.
  assert (H0 : 0 < idx _pb 0) by (rewrite pb_0; unfold p0; lra).
  assert (H1 : 0 < idx _pb 1).
  { rewrite pb_1. apply Rmult_lt_0_compat; [unfold p0; lra|apply exp_pos]. }
  repeat split; try assumption.
  rewrite pb_2. apply Rmult_lt_0_compat; [assumption|apply exp_pos].
Qed.

Lemma query_in_range (H : R) :
  in_range H -> query_T H = Some (point_T H) /\ query_p H = Some (point_p H).
Proof.
  intros HH. unfold query_T, query_p.
  rewrite (isa_atmosphere_scalar H false HH). split; reflexivity.
Qed.

Lemma point_T_limit (b : R) :
  b = 11000 \/ b = 20000 ->
  forall eps, 0 < eps ->
  exists delta, 0 < delta /\ delta <= 9000 /\
    forall h, Rabs (h - b) < delta -> Rabs (point_T h - point_T b) < eps.
Proof.
  intros [->| ->] eps Heps.
  - destruct (glued_limit point_T T_low T_mid 11000 0 20000) with (eps := eps)
      as [d [Hd [Hd1 [Hd2 Hlim]]]]; try lra.
    + intros h Hh. apply point_low; lra.
    + intros h Hh. destruct (Rlt_dec h 20000) as [Hlt|Hge].
      * apply point_mid; lra.
      * replace h with 20000 by lra.
        rewrite (proj1 (point_high 20000 (Rle_refl _))).
        symmetry. apply mid_meets_high.
    + apply low_meets_mid.
    + unfold T_low. reg.
    + unfold T_mid. reg.
    + exists d. repeat split; try lra. exact Hlim.
  - destruct (glued_limit point_T T_mid T_high 20000 11000 32000) with (eps := eps)
      as [d [Hd [Hd1 [Hd2 Hlim]]]]; try lra.
    + intros h Hh. apply point_mid; lra.
    + intros h Hh. apply point_high; lra.
    + apply mid_meets_high.
    + unfold T_mid. reg.
    + unfold T_high. reg.
    + exists d. repeat split; try lra. exact Hlim.
Qed.

Lemma point_p_limit (b : R) :
  b = 11000 \/ b = 20000 ->
  forall eps, 0 < eps ->
  exists delta, 0 < delta /\ delta <= 9000 /\
    forall h, Rabs (h - b) < delta -> Rabs (point_p h - point_p b) < eps.
Proof.
  intros [->| ->] eps Heps.
  - destruct (glued_limit point_p p_low p_mid 11000 0 20000) with (eps := eps)
      as [d [Hd [Hd1 [Hd2 Hlim]]]]; try lra.
    + intros h Hh. apply point_low; lra.
    + intros h Hh. destruct (Rlt_dec h 20000) as [Hlt|Hge].
      * apply point_mid; lra.
      * replace h with 20000 by lra.
        rewrite (proj2 (point_high 20000 (Rle_refl _))).
        symmetry. apply mid_meets_high.
    + apply low_meets_mid.
    + unfold p_low. apply cont_power_affine. unfold T0. lra.
    + unfold p_mid. apply cont_exp_affine.
    + exists d. repeat split; try lra. exact Hlim.
  - destruct (glued_limit point_p p_mid p_high 20000 11000 32000) with (eps := eps)
      as [d [Hd [Hd1 [Hd2 Hlim]]]]; try lra.
    + intros h Hh. apply point_mid; lra.
    + intros h Hh. apply point_high; lra.
    + apply mid_meets_high.
    + unfold p_mid. apply cont_exp_affine.
    + unfold p_high. apply cont_power_affine. rewrite Tb_2. lra.
    + exists d. repeat split; try lra. exact Hlim.
Qed.

Lemma point_at_boundaries :
  point_T 11000 = idx _Tb 1 /\ point_p 11000 = idx _pb 1
  /\ point_T 20000 = idx _Tb 2 /\ point_p 20000 = idx _pb 2.
Proof.
  destruct (point_mid 11000) as [E1 E2]; [lra|].
  destruct (point_high 20000) as [E3 E4]; [lra|].
  rewrite E1, E2, E3, E4.
  destruct low_meets_mid as [_ L], mid_meets_high as [M1 M2].
  rewrite <- M1, <- M2.
  repeat split; try reflexivity.
  - rewrite <- L. unfold p_low. rewrite pb_1, Tb_1.
    f_equal. f_equal; cbn [idx nth _lapserate]; unfold T0, g0, R_gas; lra.
  - unfold p_mid. rewrite pb_2, Tb_1. f_equal. f_equal. unfold g0, R_gas. lra.
Qed.

Lemma near_boundary (v x y : R) :
  0 < v -> Rabs (x - v) < 4e-7 * v -> Rabs (y - v) < 4e-7 * v ->
  Rabs (x - y) < 1e-6 * y.
Proof.
  intros Hv Hx Hy. apply Rabs_def2 in Hx, Hy. apply Rabs_def1; lra.
Qed.

(** C3.  The base temperature and pressure of layers 1 and 2 are the formula
    of the layer below evaluated at the boundary; the query at 11000 m and at
    20000 m returns these base values; and around each boundary the
    temperatures and the pressures returned on the two sides differ by less
    than 1e-6 of their value. *)
Theorem layers_continuous :
  _isa_gradient [idx _Hb 1] (idx _Hb 0) (idx _Tb 0) (idx _pb 0) (idx _lapserate 0)
    = ([idx _Tb 1], [idx _pb 1])
  /\ _isa_isothermal [idx _Hb 2] (idx _Hb 1) (idx _Tb 1) (idx _pb 1)
    = ([idx _Tb 2], [idx _pb 2])
  /\ query_T 11000 = Some (idx _Tb 1) /\ query_p 11000 = Some (idx _pb 1)
  /\ query_T 20000 = Some (idx _Tb 2) /\ query_p 20000 = Some (idx _pb 2)
  /\ forall b, b = 11000 \/ b = 20000 ->
     exists delta, 0 < delta /\
       forall H1 H2, b - delta < H1 <= b -> b <= H2 < b + delta ->
         exists T1 p1 T2 p2,
           query_T H1 = Some T1 /\ query_p H1 = Some p1
           /\ query_T H2 = Some T2 /\ query_p H2 = Some p2
           /\ Rabs (T1 - T2) < 1e-6 * T2
           /\ Rabs (p1 - p2) < 1e-6 * p2.
Proof.
  destruct point_at_boundaries as [B1 [B2 [B3 B4]]].
  destruct pb_pos as [_ [P1 P2]].
  split; [|split; [|split; [|split; [|split; [|split]]]]].
  - reflexivity.
  - reflexivity.
  - rewrite <- B1. apply query_in_range. unfold in_range; lra.
  - rewrite <- B2. apply query_in_range. unfold in_range; lra.
  - rewrite <- B3. apply query_in_range. unfold in_range; lra.
  - rewrite <- B4. apply query_in_range. unfold in_range; lra.
  - intros b Hb.
    assert (HT : 0 < point_T b) by (destruct Hb as [->| ->]; rewrite ?B1, ?B3, ?Tb_1, ?Tb_2; lra).
    assert (Hp : 0 < point_p b) by (destruct Hb as [->| ->]; rewrite ?B2, ?B4; assumption).
    destruct (point_T_limit b Hb (4e-7 * point_T b)) as [dT [HdT [HdT' LT]]]; [lra|].
    destruct (point_p_limit b Hb (4e-7 * point_p b)) as [dp [Hdp [Hdp' Lp]]]; [lra|].
    exists (Rmin dT dp).
    assert (Hm1 := Rmin_l dT dp). assert (Hm2 := Rmin_r dT dp).
    split; [apply Rmin_glb_lt; assumption|].
    intros H1 H2 HH1 HH2.
    assert (R1 : in_range H1) by (unfold in_range; destruct Hb as [->| ->]; lra).
    assert (R2 : in_range H2) by (unfold in_range; destruct Hb as [->| ->]; lra).
    exists (point_T H1), (point_p H1), (point_T H2), (point_p H2).
    destruct (query_in_range H1 R1) as [-> ->].
    destruct (query_in_range H2 R2) as [-> ->].
    assert (A1 : Rabs (H1 - b) < Rmin dT dp) by (apply Rabs_def1; lra).
    assert (A2 : Rabs (H2 - b) < Rmin dT dp) by (apply Rabs_def1; lra).
    repeat split.
    + apply (near_boundary (point_T b)); [exact HT| |]; apply LT; lra.
    + apply (near_boundary (point_p b)); [exact Hp| |]; apply Lp; lra.
Qed.

(** ** Geometric and geopotential altitude *)

Lemma round_trip_exact (z : R) :
  - R_EARTH < z ->
  R_EARTH * (R_EARTH * z / (R_EARTH + z)) / (R_EARTH - R_EARTH * z / (R_EARTH + z)) = z.
Proof.
  intros Hz. unfold R_EARTH in *. field. split; lra.
Qed.

(** C4.  For a geometric altitude [z] in [0, 32000], converting to
    geopotential altitude and back returns [z] within a relative error of
    1e-9; on an array of such altitudes the round trip returns the array. *)
Theorem altitude_round_trip :
  (forall z : R, 0 <= z <= 32000 ->
     exists z', geopotential2geometric (geometric2geopotential (VFloat z)) = VFloat z'
                /\ Rabs (z' - z) <= 1e-9 * Rabs z)
  /\ (forall a : ndarray, Forall (fun z => 0 <= z <= 32000) (data a) ->
        exists a', geopotential2geometric (geometric2geopotential (VArr a)) = VArr a'
                   /\ shape a' = shape a
                   /\ Forall2 (fun z' z => Rabs (z' - z) <= 1e-9 * Rabs z) (data a') (data a)).
Proof.
  split.
  - intros z Hz. exists z. split.
    + cbn. unfold item. cbn. f_equal. apply round_trip_exact. unfold R_EARTH. lra.
    + rewrite Rminus_diag, Rabs_R0. assert (H := Rabs_pos z). lra.
  - intros [s d] Ha. cbn in Ha.
    exists (mk_ndarray s d). split; [|split; [reflexivity|]].
    + cbn. unfold nd_map. cbn. f_equal. f_equal.
      rewrite map_map. rewrite <- (map_id d) at 2.
      apply map_ext_in. intros z Hin.
      rewrite Forall_forall in Ha. specialize (Ha z Hin).
      apply round_trip_exact. unfold R_EARTH. lra.
    + cbn. clear Ha. induction d as [|z d IH]; constructor; [|exact IH].
      rewrite Rminus_diag, Rabs_R0. assert (H := Rabs_pos z). lra.
Qed.

Lemma altitude_round_trip_witness :
  exists z', geopotential2geometric (geometric2geopotential (VFloat 11000)) = VFloat z'
             /\ Rabs (z' - 11000) <= 1e-9 * Rabs 11000.
Proof.
  apply (proj1 altitude_round_trip 11000). lra.
Defined.

(** ** Pressure decreases with altitude *)

Lemma p_low_decreasing (h1 h2 : R) :
  h1 < h2 -> h2 <= 11000 -> p_low h2 < p_low h1.
Proof.
  intros H12 H2. unfold p_low.
  apply Rmult_lt_compat_l; [unfold p0; lra|].
  apply Rlt_Rpower_l.
  - unfold g0, R_gas. apply Rdiv_lt_0_compat; lra.
  - unfold T0. lra.
Qed.

Lemma p_mid_decreasing (h1 h2 : R) : h1 < h2 -> p_mid h2 < p_mid h1.
Proof.
  intros H12. unfold p_mid.
  apply Rmult_lt_compat_l; [apply pb_pos|].
  apply exp_increasing. rewrite Tb_1. unfold g0, R_gas. 
  apply Rplus_lt_compat_l.
  assert (Hc : - 9.80665 / (287.05287 * 216.65) < 0).
  { unfold Rdiv. apply Rmult_neg_pos; [lra|]. apply Rinv_0_lt_compat. lra. }
  nra.
Qed.

Lemma p_high_decreasing (h1 h2 : R) :
  20000 <= h1 -> h1 < h2 -> p_high h2 < p_high h1.
Proof.
  intros H1 H12. unfold p_high.
  apply Rmult_lt_compat_l; [apply pb_pos|].
  rewrite Tb_2.
  replace (- g0 / (R_gas * 0.001)) with (- (g0 / (R_gas * 0.001)))
    by (unfold g0, R_gas; lra).
  rewrite !Rpower_Ropp.
  apply Rinv_lt_contravar.
  - apply Rmult_lt_0_compat; unfold Rpower; apply exp_pos.
  - apply Rlt_Rpower_l.
    + unfold g0, R_gas. apply Rdiv_lt_0_compat; lra.
    + lra.
Qed.

Lemma point_p_on_low h : h <= 11000 -> point_p h = p_low h.
Proof.
  intros Hh. destruct (Rlt_dec h 11000) as [Hlt|Hge].
  - now apply point_low.
  - replace h with 11000 by lra.
    rewrite (proj2 (point_mid 11000 ltac:(lra))). symmetry. apply low_meets_mid.
Qed.

Lemma point_p_on_mid h : 11000 <= h <= 20000 -> point_p h = p_mid h.
Proof.
  intros Hh. destruct (Rlt_dec h 20000) as [Hlt|Hge].
  - apply point_mid. lra.
  - replace h with 20000 by lra.
    rewrite (proj2 (point_high 20000 ltac:(lra))). symmetry. apply mid_meets_high.
Qed.

Lemma point_p_on_high h : 20000 <= h -> point_p h = p_high h.
Proof. intros Hh. now apply point_high. Qed.

Lemma point_p_decreasing (h1 h2 : R) :
  h1 < h2 -> point_p h2 < point_p h1.
Proof.
  intros H12.
  destruct (Rle_dec h2 11000) as [A|A].
  { rewrite !point_p_on_low by lra. now apply p_low_decreasing. }
  destruct (Rle_dec 20000 h1) as [B|B].
  { rewrite !point_p_on_high by lra. now apply p_high_decreasing. }
  destruct (Rle_dec h1 11000) as [C|C].
  - (* h1 <= 11000 < h2 *)
    apply Rlt_le_trans with (point_p 11000).
    2:{ rewrite !point_p_on_low by lra.
        destruct (Req_dec h1 11000) as [->|Hne]; [lra|].
        left. apply p_low_decreasing; lra. }
    destruct (Rle_dec h2 20000) as [D|D].
    + rewrite !point_p_on_mid by lra. apply p_mid_decreasing; lra.
    + apply Rlt_trans with (point_p 20000).
      * rewrite !point_p_on_high by lra. apply p_high_decreasing; lra.
      * rewrite !point_p_on_mid by lra. apply p_mid_decreasing; lra.
  - (* 11000 < h1 < 20000 *)
    destruct (Rle_dec h2 20000) as [D|D].
    + rewrite !point_p_on_mid by lra. now apply p_mid_decreasing.
    + apply Rlt_trans with (point_p 20000).
      * rewrite !point_p_on_high by lra. apply p_high_decreasing; lra.
      * rewrite !point_p_on_mid by lra. apply p_mid_decreasing; lra.
Qed.

(** C6 (exact arithmetic).  For geopotential altitudes [0 <= H1 < H2 <= 32000]
    the query returns a pressure at [H2] strictly below the pressure at
    [H1]. *)
Theorem pressure_strictly_decreasing (H1 H2 : R) :
  0 <= H1 -> H1 < H2 -> H2 <= 32000 ->
  exists p1 p2,
    query_p H1 = Some p1 /\ query_p H2 = Some p2 /\ p2 < p1.
Proof.
  intros L0 L12 L2.
  exists (point_p H1), (point_p H2).
  split; [apply query_in_range; unfold in_range; lra|].
  split; [apply query_in_range; unfold in_range; lra|].
  now apply point_p_decreasing.
Qed.

Lemma pressure_strictly_decreasing_witness :
  exists p1 p2,
    query_p 5000 = Some p1 /\ query_p 25000 = Some p2 /\ p2 < p1.
Proof.
  apply (pressure_strictly_decreasing 5000 25000); lra.
Defined.

(** ** Binary64 evaluation *)

Module Binary64Facts.
Import Floats.
Import Binary64.
Local Open Scope float_scope.
#[local] Set Warnings "-inexact-float".

Lemma SFltb_irrefl (s : SpecFloat.spec_float) : SpecFloat.SFltb s s = false.
Proof.
  destruct s as [b|b| |b m e]; unfold SpecFloat.SFltb, SpecFloat.SFcompare.
  - reflexivity.
  - now destruct b.
  - reflexivity.
  - rewrite Z.compare_refl, Pos.compare_cont_refl. now destruct b.
Qed.

Lemma ltb_irrefl (x : float) : (x <? x) = false.
Proof. rewrite ltb_spec. apply SFltb_irrefl. Qed.

(** C6 as the specification states it fails under binary64 evaluation: the
    pressure is not strictly decreasing.  5000 m and the next binary64 number
    above it are both accepted, and whatever [pow] and [exp] the C library
    provides, the temperatures computed for them round to the same number
    and the two pressures are equal. *)
Lemma pressure_plateau_binary64 :
  exists H1 H2 : float,
    (0 <=? H1) = true /\ (H1 <? H2) = true /\ (H2 <=? 32000) = true
    /\ forall pow exp,
         exists T1 p1 T2 p2,
           isa_point pow exp H1 = Some (T1, p1)
           /\ isa_point pow exp H2 = Some (T2, p2)
           /\ (p2 <? p1) = false.
Proof.
  exists 5000.0, (next_up 5000.0).
  repeat split; try (vm_compute; reflexivity).
  intros pow exp.
  exists 255.64999999999998, (101325 * pow 0.88721152177685236 5.2558798127166773),
         255.64999999999998, (101325 * pow 0.88721152177685236 5.2558798127166773).
  repeat split; try (vm_compute; reflexivity).
  apply ltb_irrefl.
Qed.

(** C7 as the specification states it fails under binary64 evaluation: the
    TAS to EAS to TAS round trip is accurate only relative to the speed.  At
    density 0.5 kg/m^3 and TAS 1e20 m/s the recovered TAS is off by more than
    1e-6 (by 16384).  The sea-level density is the one [isa_atmosphere(0)]
    computes, for any C library whose [pow] returns 1 for the base 1, as
    IEEE 754 requires. *)
Lemma airspeed_round_trip_binary64 :
  exists tas rho : float,
    (0 <? tas) = true /\ (0 <? rho) = true
    /\ forall pow exp,
         (forall y, pow 1 y = 1) ->
         exists rho0,
           sea_level_density pow exp = Some rho0
           /\ (1e-6 <? abs (eas_to_tas rho0 rho (tas_to_eas rho0 rho tas) - tas)) = true.
Proof.
  exists 1e20, 0.5.
  repeat split; try (vm_compute; reflexivity).
  intros pow exp Hpow.
  exists (101325 / 82714.284490499995).
  split.
  - transitivity (Some (101325 * pow 1 5.2558798127166773 / 82714.284490499995));
      [vm_compute; reflexivity|].
    rewrite Hpow. vm_compute. reflexivity.
  - vm_compute. reflexivity.
Qed.

(** The altitude round trip at sample altitudes, evaluated on binary64
    numbers: the relative error stays below 1e-9. *)
Lemma altitude_round_trip_binary64 :
  forallb (fun z => abs (geopotential2geometric (geometric2geopotential z) - z)
                    <=? 1e-9 * abs z)
          [0; 1; 1000; 11000; 12345.678; 20000; 32000] = true.
Proof. vm_compute. reflexivity. Qed.

(** The sea-level state on binary64 numbers: temperature and pressure are
    288.15 and 101325 exactly, and the density is within 1e-6 of 1.225. *)
Lemma sea_level_binary64 (pow : float -> float -> float) (exp : float -> float) :
  (forall y, pow 1 y = 1) ->
  isa_point pow exp (geometric2geopotential 0) = Some (288.15, 101325)
  /\ exists rho, sea_level_density pow exp = Some rho
                 /\ (abs (rho - 1.225) <? 1e-6) = true.
Proof.
  intros Hpow.
  assert (E : isa_point pow exp (geometric2geopotential 0) = Some (288.15, 101325)).
  { transitivity (Some (288.15, 101325 * pow 1 5.2558798127166773));
      [vm_compute; reflexivity|].
    rewrite Hpow. vm_compute. reflexivity. }
  split; [exact E|].
  exists (101325 / (R_gas * 288.15)). split.
  - unfold sea_level_density. rewrite E. reflexivity.
  - vm_compute. reflexivity.
Qed.

(** The default atmosphere on binary64 numbers: the factor between TAS and
    EAS, [sqrt(rho0 / rho0)], evaluates to 1. *)
Lemma default_factor_binary64 (pow : float -> float -> float) (exp : float -> float) :
  (forall y, pow 1 y = 1) ->
  exists rho0, sea_level_density pow exp = Some rho0 /\ sqrt (rho0 / rho0) = 1.
Proof.
  intros Hpow. destruct (sea_level_binary64 pow exp Hpow) as [E _].
  exists (101325 / (R_gas * 288.15)). split.
  - unfold sea_level_density. rewrite E. reflexivity.
  - vm_compute. reflexivity.
Qed.

End Binary64Facts.

(** ** The sea-level state, in exact arithmetic and on binary64 numbers *)

Module SeaLevel.
Import Floats.
#[local] Set Warnings "-inexact-float".

(** C2.  The query at geometric altitude 0 returns the temperature 288.15 K
    and the pressure 101325 Pa, and a density within 1e-6 of 1.225 kg/m^3
    (all three within 1e-6 of the stated values).  This holds in exact
    arithmetic and, for a C library whose [pow] returns 1 for the base 1, for
    the binary64 numbers the code computes. *)
Theorem sea_level_state :
  (exists st T p rho,
     isa_atmosphere (VFloat 0) true = Ok st
     /\ temperature st = VFloat T
     /\ pressure st = VFloat p
     /\ density st = VFloat rho
     /\ Rabs (T - 288.15) < 1e-6
     /\ Rabs (p - 101325) < 1e-6
     /\ Rabs (rho - 1.225) < 1e-6)
  /\ (forall (pow : float -> float -> float) (exp : float -> float),
        (forall y, pow 1%float y = 1%float) ->
        Binary64.isa_point pow exp (Binary64.geometric2geopotential 0%float)
        = Some (288.15%float, 101325%float)
        /\ exists rho,
             Binary64.sea_level_density pow exp = Some rho
             /\ (abs (rho - 1.225) <? 1e-6)%float = true).
Proof.
  split; [|exact Binary64Facts.sea_level_binary64].
  assert (H0 : H_of true 0 = 0) by (cbn; unfold R_EARTH; lra).
  assert (ET : point_T 0 = 288.15) by (rewrite point_T_low by lra; unfold T0; lra).
  assert (Ep : point_p 0 = 101325).
  { rewrite point_p_low by lra.
    replace ((T0 - 0.0065 * 0) / T0) with 1 by (unfold T0; lra).
    rewrite Rpower_one. unfold p0. lra. }
  exists (point_state true (VFloat 0)), (point_T 0), (point_p 0), (point_rho 0).
  split; [apply isa_atmosphere_scalar; rewrite H0; unfold in_range; lra|].
  cbn [point_state temperature pressure density vmap]. rewrite H0.
  repeat split.
  - rewrite ET. apply Rabs_def1; lra.
  - rewrite Ep. apply Rabs_def1; lra.
  - unfold point_rho. rewrite ET, Ep. unfold R_gas. apply Rabs_def1; lra.
Qed.

End SeaLevel.

(** ** Broadcasting *)

Lemma bshape_rev_nil_r (a : list nat) : bshape_rev a [] = Some a.
Proof. now destruct a. Qed.

Lemma bshape_rev_same (a : list nat) : bshape_rev a a = Some a.
Proof.
  induction a as [|x a IH]; [reflexivity|].
  cbn. now rewrite IH, Nat.eqb_refl.
Qed.

Lemma bshape_rev_comm (a b : list nat) : bshape_rev a b = bshape_rev b a.
Proof.
  revert b; induction a as [|x a IH]; intros [|y b]; try reflexivity.
  cbn. rewrite (IH b). destruct (bshape_rev b a) as [r|]; [|reflexivity].
  rewrite (Nat.eqb_sym y x).
  destruct (x =? y)%nat eqn:Exy.
  - apply Nat.eqb_eq in Exy. now subst.
  - destruct (x =? 1)%nat eqn:Ex, (y =? 1)%nat eqn:Ey; try reflexivity.
    apply Nat.eqb_eq in Ex, Ey. apply Nat.eqb_neq in Exy. lia.
Qed.

(** The broadcast shape absorbs the shapes it comes from. *)
Lemma bshape_rev_absorb (a b c : list nat) :
  bshape_rev a b = Some c -> bshape_rev c a = Some c.
Proof.
  revert b c; induction a as [|x a IH]; intros b c H.
  - cbn in H. injection H as <-. apply bshape_rev_nil_r.
  - destruct b as [|y b].
    + cbn in H. injection H as <-. apply bshape_rev_same.
    + cbn in H. destruct (bshape_rev a b) as [r|] eqn:E; [|discriminate].
      specialize (IH b r E).
      destruct (x =? y)%nat eqn:Exy.
      * injection H as <-. cbn. now rewrite IH, Nat.eqb_refl.
      * destruct (x =? 1)%nat eqn:Ex.
        -- injection H as <-. cbn. rewrite IH, (Nat.eqb_sym y x), Exy, Ex.
           destruct (y =? 1)%nat eqn:Ey; [|reflexivity].
           apply Nat.eqb_eq in Ex, Ey. apply Nat.eqb_neq in Exy. lia.
        -- destruct (y =? 1)%nat; [|discriminate].
           injection H as <-. cbn. now rewrite IH, Nat.eqb_refl.
Qed.

Lemma broadcast_shapes_nil_r (a : list nat) : broadcast_shapes a [] = Some a.
Proof.
  unfold broadcast_shapes. cbn [rev]. rewrite bshape_rev_nil_r. cbn.
  now rewrite rev_involutive.
Qed.

Lemma broadcast_shapes_nil_l (a : list nat) : broadcast_shapes [] a = Some a.
Proof. unfold broadcast_shapes. cbn. now rewrite rev_involutive. Qed.

Lemma broadcast_shapes_same (a : list nat) : broadcast_shapes a a = Some a.
Proof.
  unfold broadcast_shapes. rewrite bshape_rev_same. cbn.
  now rewrite rev_involutive.
Qed.

Lemma broadcast_shapes_comm (a b : list nat) :
  broadcast_shapes a b = broadcast_shapes b a.
Proof. unfold broadcast_shapes. now rewrite bshape_rev_comm. Qed.

Lemma broadcast_shapes_absorb (a b c : list nat) :
  broadcast_shapes a b = Some c ->
  broadcast_shapes c a = Some c /\ broadcast_shapes c b = Some c
  /\ broadcast_shapes a c = Some c /\ broadcast_shapes b c = Some c.
Proof.
  unfold broadcast_shapes. intros H.
  destruct (bshape_rev (rev a) (rev b)) as [r|] eqn:E; [|discriminate].
  cbn in H. injection H as <-.
  rewrite rev_involutive.
  assert (A := bshape_rev_absorb _ _ _ E).
  assert (E' := E). rewrite bshape_rev_comm in E'.
  assert (B := bshape_rev_absorb _ _ _ E').
  rewrite (bshape_rev_comm (rev a) r), (bshape_rev_comm (rev b) r), A, B.
  repeat split; reflexivity.
Qed.

(** ** Shapes of the results of Python's arithmetic *)

Lemma py_div_zero (x : R) : py_div (VFloat x) (VFloat 0) = Err ZeroDivision.
Proof. cbn. destruct (Req_dec_T 0 0); [reflexivity|contradiction]. Qed.

Lemma vshape_np_sqrt (v : value) : vshape (np_sqrt v) = vshape v.
Proof. reflexivity. Qed.

Lemma vshape_np_square (v : value) : vshape (np_square v) = vshape v.
Proof. reflexivity. Qed.

(** ** The sea-level state *)

Lemma sea_level_atmosphere_ok : sea_level_atmosphere = Ok sea_level.
Proof.
  apply isa_atmosphere_scalar. cbn. unfold in_range, R_EARTH. lra.
Qed.

Lemma sea_level_fields :
  exists a mu,
    density sea_level = VFloat rho0
    /\ pressure sea_level = VFloat p0
    /\ speed_of_sound sea_level = VFloat a
    /\ dynamic_viscosity sea_level = VFloat mu.
Proof.
  assert (H0 : H_of true 0 = 0) by (cbn; unfold R_EARTH; lra).
  destruct (point_low 0) as [ET Ep]; [lra|].
  assert (ET' : point_T 0 = T0) by (rewrite ET; unfold T_low; lra).
  assert (Ep' : point_p 0 = p0).
  { rewrite Ep. unfold p_low. rewrite Rmult_0_r, Rplus_0_r, Rpower_one. lra. }
  exists (point_a 0), (point_mu 0).
  unfold sea_level, point_state. cbn [density pressure speed_of_sound dynamic_viscosity vmap].
  rewrite H0. repeat split.
  - unfold point_rho, rho0. now rewrite ET', Ep'.
  - now rewrite Ep'.
Qed.

Lemma rho0_pos : 0 < rho0.
Proof. unfold rho0, p0, R_gas, T0. apply Rdiv_lt_0_compat; lra. Qed.

(** ** The speed type *)

Lemma allowed_speed_type (speed_type : string) :
  existsb (String.eqb speed_type) allowed_speed_types = true
  <-> In speed_type allowed_speed_types.
Proof.
  rewrite existsb_exists. split.
  - intros [s [Hin E]]. apply String.eqb_eq in E. now subst.
  - intros Hin. exists speed_type. split; [exact Hin|apply String.eqb_refl].
Qed.

Lemma speed_branch_allowed (speed_type : string) :
  In speed_type allowed_speed_types -> speed_branch speed_type <> BrElse.
Proof.
  intros [<-|[<-|[<-|[]]]]; discriminate.
Qed.

Lemma speed_branch_else (speed_type : string) :
  speed_branch speed_type = BrElse -> ~ In speed_type allowed_speed_types.
Proof. intros E Hin. now apply (speed_branch_allowed _ Hin). Qed.

Lemma bind_not_invalid {A B : Type} (m : result A) (k : A -> result B) :
  not_invalid m -> (forall a, not_invalid (k a)) -> not_invalid (bind m k).
Proof.
  unfold not_invalid. intros Hm Hk. destruct m as [a|e]; cbn; [apply Hk|].
  intros E. apply Hm. now injection E as ->.
Qed.

Lemma nd_binop_not_invalid f a b : not_invalid (nd_binop f a b).
Proof. unfold nd_binop. destruct (broadcast_shapes _ _); discriminate. Qed.

Lemma py_binop_not_invalid f a b : not_invalid (py_binop f a b).
Proof.
  destruct a as [x|a], b as [y|b]; cbn [py_binop];
    [discriminate| | |];
    (apply bind_not_invalid; [apply nd_binop_not_invalid|discriminate]).
Qed.

Lemma py_div_not_invalid a b : not_invalid (py_div a b).
Proof.
  destruct a as [x|a], b as [y|b]; cbn [py_div];
    [destruct (Req_dec_T y 0); discriminate| | |];
    (apply bind_not_invalid; [apply nd_binop_not_invalid|discriminate]).
Qed.

Lemma np_array_list_not_invalid vs : not_invalid (np_array_list vs).
Proof.
  unfold np_array_list. destruct vs; [discriminate|].
  destruct (forallb _ _); discriminate.
Qed.

Ltac not_invalid_step :=
  first
    [ apply py_div_not_invalid
    | apply py_binop_not_invalid
    | apply nd_binop_not_invalid
    | apply np_array_list_not_invalid
    | apply bind_not_invalid; [|intros ?]
    | unfold not_invalid; discriminate ].

(** C8.  A [speed_type] outside TAS, EAS and mach makes the call fail with
    [InvalidArgument], whatever the other arguments; for the three valid
    kinds the call does not fail so, and the chain on [speed_type] never
    takes its [else] arm, the one with the zero-valued TAS and EAS. *)
Theorem speed_type_validated
    (speed characteristic_length : value) (speed_type : string)
    (atmosphere_state : atmosphere_arg) :
  (~ In speed_type allowed_speed_types ->
     aerodynamic_state speed characteristic_length speed_type atmosphere_state
     = Err InvalidArgument)
  /\ (In speed_type allowed_speed_types ->
        aerodynamic_state speed characteristic_length speed_type atmosphere_state
        <> Err InvalidArgument
        /\ speed_branch speed_type <> BrElse).
Proof.
  unfold aerodynamic_state. rewrite sea_level_atmosphere_ok. cbn [bind].
  split.
  - intros Hn. destruct (existsb _ _) eqn:E; [|reflexivity].
    apply allowed_speed_type in E. contradiction.
  - intros Hin. split; [|now apply speed_branch_allowed].
    apply allowed_speed_type in Hin as E. rewrite E. cbn [negb].
    fold (@not_invalid AerodynamicState).
    apply bind_not_invalid.
    { destruct atmosphere_state; try discriminate.
      repeat not_invalid_step. }
    intros [[[rho sos] mu] p].
    apply bind_not_invalid.
    { destruct (speed_branch speed_type); repeat not_invalid_step. }
    intros [tas eas]. repeat not_invalid_step.
Qed.

Lemma speed_type_validated_witness :
  aerodynamic_state (VFloat 100) (VFloat 1) "CAS" AtmNone = Err InvalidArgument
  /\ aerodynamic_state (VFloat 100) (VFloat 1) "EAS" AtmNone <> Err InvalidArgument
  /\ speed_branch "EAS" <> BrElse.
Proof.
  split.
  - apply (speed_type_validated (VFloat 100) (VFloat 1) "CAS" AtmNone).
    cbn. intros [E|[E|[E|[]]]]; discriminate.
  - apply (speed_type_validated (VFloat 100) (VFloat 1) "EAS" AtmNone).
    cbn. auto.
Defined.

(** ** Shapes of the aerodynamic state *)

Lemma bshape_rev_absorb_trans (c b a : list nat) :
  bshape_rev c b = Some c -> bshape_rev b a = Some b -> bshape_rev c a = Some c.
Proof.
  revert b a; induction c as [|z c IH]; intros b a H1 H2.
  - cbn in H1. injection H1 as ->. cbn in H2. injection H2 as ->. reflexivity.
  - destruct b as [|y b].
    + cbn in H2. injection H2 as ->. reflexivity.
    + destruct a as [|x a]; [reflexivity|].
      cbn in H1, H2 |- *.
      destruct (bshape_rev c b) as [r1|] eqn:E1; [|discriminate].
      destruct (bshape_rev b a) as [r2|] eqn:E2; [|discriminate].
      assert (r1 = c /\ (z = y \/ y = 1%nat)) as [-> Hzy].
      { destruct (z =? y)%nat eqn:A; [apply Nat.eqb_eq in A|].
        - injection H1 as ->. auto.
        - destruct (z =? 1)%nat eqn:B.
          + injection H1 as -> ->. apply Nat.eqb_neq in A. lia.
          + destruct (y =? 1)%nat eqn:C; [|discriminate].
            apply Nat.eqb_eq in C. injection H1 as ->. auto. }
      assert (r2 = b /\ (y = x \/ x = 1%nat)) as [-> Hyx].
      { destruct (y =? x)%nat eqn:A; [apply Nat.eqb_eq in A|].
        - injection H2 as ->. auto.
        - destruct (y =? 1)%nat eqn:B.
          + injection H2 as -> ->. apply Nat.eqb_neq in A. lia.
          + destruct (x =? 1)%nat eqn:C; [|discriminate].
            apply Nat.eqb_eq in C. injection H2 as ->. auto. }
      rewrite (IH b a E1 E2).
      destruct (z =? x)%nat eqn:A; [reflexivity|].
      apply Nat.eqb_neq in A.
      destruct (z =? 1)%nat eqn:B; [apply Nat.eqb_eq in B; lia|].
      apply Nat.eqb_neq in B.
      destruct (x =? 1)%nat eqn:C; [reflexivity|].
      apply Nat.eqb_neq in C. lia.
Qed.

Lemma broadcast_shapes_absorb_trans (c b a : list nat) :
  broadcast_shapes c b = Some c -> broadcast_shapes b a = Some b ->
  broadcast_shapes c a = Some c.
Proof.
  unfold broadcast_shapes. intros H1 H2.
  destruct (bshape_rev (rev c) (rev b)) as [r1|] eqn:E1; [|discriminate].
  destruct (bshape_rev (rev b) (rev a)) as [r2|] eqn:E2; [|discriminate].
  cbn in H1, H2. injection H1 as H1. injection H2 as H2.
  assert (r1 = rev c) by (rewrite <- H1; now rewrite rev_involutive).
  assert (r2 = rev b) by (rewrite <- H2; now rewrite rev_involutive).
  subst r1 r2.
  rewrite (bshape_rev_absorb_trans _ _ _ E1 E2). cbn. now rewrite rev_involutive.
Qed.

(** The results of Python's arithmetic: the shape, and whether the result is
    a Python float. *)
Lemma py_binop_spec (f : R -> R -> R) (a b : value) :
  match broadcast_shapes (vshape a) (vshape b) with
  | Some s => exists r, py_binop f a b = Ok r /\ vshape r = s
                        /\ np_isscalar r = np_isscalar a && np_isscalar b
  | None => py_binop f a b = Err ShapeMismatch
  end.
Proof.
  destruct a as [x|a], b as [y|b]; cbn [py_binop];
    [cbn; eauto| | |];
    unfold vshape; cbn [np_asarray]; unfold nd_binop;
    destruct (broadcast_shapes _ _); cbn; eauto.
Qed.

Lemma py_mul_spec (a b : value) :
  match broadcast_shapes (vshape a) (vshape b) with
  | Some s => exists r, py_mul a b = Ok r /\ vshape r = s
                        /\ np_isscalar r = np_isscalar a && np_isscalar b
  | None => py_mul a b = Err ShapeMismatch
  end.
Proof. apply py_binop_spec. Qed.

Lemma py_add_spec (a b : value) :
  match broadcast_shapes (vshape a) (vshape b) with
  | Some s => exists r, py_add a b = Ok r /\ vshape r = s
                        /\ np_isscalar r = np_isscalar a && np_isscalar b
  | None => py_add a b = Err ShapeMismatch
  end.
Proof. apply py_binop_spec. Qed.

Lemma py_div_spec (a b : value) :
  (np_isscalar a && np_isscalar b = true -> b <> VFloat 0) ->
  match broadcast_shapes (vshape a) (vshape b) with
  | Some s => exists r, py_div a b = Ok r /\ vshape r = s
                        /\ np_isscalar r = np_isscalar a && np_isscalar b
  | None => py_div a b = Err ShapeMismatch
  end.
Proof.
  intros Hz.
  destruct a as [x|a], b as [y|b]; cbn [py_div];
    [| unfold vshape; cbn [np_asarray]; unfold nd_binop;
       destruct (broadcast_shapes _ _); cbn; eauto ..].
  destruct (Req_dec_T y 0) as [->|Hy].
  - exfalso. now apply Hz.
  - cbn. eauto.
Qed.

Lemma vshape_float (x : R) : vshape (VFloat x) = [].
Proof. reflexivity. Qed.

Lemma vshape_asarray (v : value) : vshape (VArr (np_asarray v)) = vshape v.
Proof. reflexivity. Qed.

Ltac rw_shapes H :=
  rewrite ?vshape_float, ?vshape_asarray in H;
  cbn [np_isscalar andb] in H;
  repeat match goal with
         | E : vshape _ = _ |- _ => rewrite E in H
         | E : np_isscalar _ = _ |- _ => rewrite E in H
         | E : broadcast_shapes _ _ = _ |- _ => rewrite E in H
         end;
  rewrite ?andb_false_r, ?andb_true_r in H;
  cbn [np_isscalar andb] in H.

(** The side condition of a division: the operands are not both Python
    floats, or the divisor is not zero. *)
Ltac div_side :=
  let X := fresh in
  let Y := fresh in
  intros X Y; rw_shapes X;
  first
    [ discriminate X
    | contradiction
    | injection Y as Y; pose proof rho0_pos; lra ].

(** One arithmetic step of the computation: the lemma for an operation of
    the goal, its shapes rewritten with what is known. *)
Ltac py_next :=
  let S := fresh "S" in
  lazymatch goal with
  | |- context [bind (py_mul ?a ?b) _] => pose proof (py_mul_spec a b) as S
  | |- context [bind (py_add ?a ?b) _] => pose proof (py_add_spec a b) as S
  | |- context [bind (py_div ?a ?b) _] =>
      pose proof (py_div_spec a b ltac:(div_side)) as S
  end;
  rewrite ?vshape_np_sqrt, ?vshape_np_square in S;
  rw_shapes S;
  lazymatch type of S with
  | ex _ =>
      let r := fresh "r" in
      let E := fresh "E" in
      let Hs := fresh "Hs" in
      let Hb := fresh "Hb" in
      destruct S as [r [E [Hs Hb]]]; rewrite E; cbn [bind]
  | _ = _ => rewrite S; cbn [bind]
  end.

Lemma aerodynamic_state_default (speed L : value) (speed_type : string) :
  aerodynamic_state speed L speed_type AtmNone
  = aerodynamic_state speed L speed_type (AtmState sea_level).
Proof.
  unfold aerodynamic_state. rewrite sea_level_atmosphere_ok. reflexivity.
Qed.

Lemma sea_level_shape : atm_shape sea_level [].
Proof.
  destruct sea_level_fields as [a0 [mu0 [Fr [Fp [Fa Fm]]]]].
  unfold atm_shape. rewrite Fr, Fp, Fa, Fm. repeat split.
Qed.

Lemma sea_level_density_nonzero : density sea_level <> VFloat 0.
Proof.
  destruct sea_level_fields as [a0 [mu0 [Fr _]]]. rewrite Fr.
  intros E. injection E as E. pose proof rho0_pos. lra.
Qed.

(** The shapes of the six output fields, and the failure of the call, read
    off the shapes of the three arguments. *)
Lemma aerodynamic_state_shapes (speed L : value) (speed_type : string)
    (s : ISAState) (sa : list nat) :
  In speed_type allowed_speed_types ->
  atm_shape s sa ->
  density s <> VFloat 0 ->
  match broadcast_shapes (vshape speed) sa with
  | None => aerodynamic_state speed L speed_type (AtmState s) = Err ShapeMismatch
  | Some s2 =>
      match broadcast_shapes s2 (vshape L) with
      | None => aerodynamic_state speed L speed_type (AtmState s) = Err ShapeMismatch
      | Some s3 =>
          exists st,
            aerodynamic_state speed L speed_type (AtmState s) = Ok st
            /\ vshape (TAS st) = (if (speed_type =? "TAS")%string
                                  then vshape speed else s2)
            /\ vshape (EAS st) = (if (speed_type =? "EAS")%string
                                  then vshape speed else s2)
            /\ vshape (mach st) = s2
            /\ vshape (reynolds st) = s3
            /\ vshape (dynamic_pressure st) = s2
            /\ vshape (stagnation_pressure st) = s2
      end
  end.
Proof.
  intros Hin [Hrho [Hsos [Hmu Hp]]] Hnz.
  remember (vshape speed) as ss eqn:Hss. symmetry in Hss.
  remember (vshape L) as sc eqn:Hsc. symmetry in Hsc.
  assert (N1 := broadcast_shapes_nil_r sa).
  assert (N2 := broadcast_shapes_nil_l sa).
  destruct sea_level_fields as [a0 [mu0 [Fr [Fp [Fa Fm]]]]].
  unfold aerodynamic_state. rewrite sea_level_atmosphere_ok. cbn [bind].
  destruct (broadcast_shapes ss sa) as [s2|] eqn:B1.
  - destruct (broadcast_shapes_absorb _ _ _ B1) as [A1 [A2 [A3 A4]]].
    assert (B1' := B1). rewrite broadcast_shapes_comm in B1'.
    destruct (broadcast_shapes s2 sc) as [s3|] eqn:B2.
    + destruct (broadcast_shapes_absorb _ _ _ B2) as [A5 [A6 [A7 A8]]].
      assert (A9 := broadcast_shapes_absorb_trans _ _ _ A5 A2).
      destruct Hin as [<-|[<-|[<-|[]]]];
        cbn [existsb allowed_speed_types String.eqb Ascii.eqb Bool.eqb orb negb
               speed_branch];
        rewrite Fr; repeat py_next;
        eexists; (split; [reflexivity|]);
        cbn [TAS EAS mach reynolds dynamic_pressure stagnation_pressure];
        rewrite ?vshape_asarray; repeat split; assumption.
    + destruct Hin as [<-|[<-|[<-|[]]]];
        cbn [existsb allowed_speed_types String.eqb Ascii.eqb Bool.eqb orb negb
               speed_branch];
        rewrite Fr; repeat py_next; reflexivity.
  - destruct Hin as [<-|[<-|[<-|[]]]];
      cbn [existsb allowed_speed_types String.eqb Ascii.eqb Bool.eqb orb negb
             speed_branch];
      rewrite Fr; repeat py_next; reflexivity.
Qed.

(** The shapes as the code computes them, operation by operation.  For a
    valid speed type and an atmosphere state whose density is not the Python
    float 0: the call fails with [ShapeMismatch] when the shapes of speed,
    atmosphere and characteristic length do not broadcast together; when they
    do, the reynolds field has the broadcast shape of the three, the speed
    that was given keeps the shape of [speed], and the other fields have the
    broadcast shape of speed and atmosphere; so when the three arguments have
    one shape every field has that shape, the shape [()] included. *)
Theorem output_shapes_follow_broadcasting (speed L : value) (speed_type : string)
    (s : ISAState) (sa : list nat) :
  In speed_type allowed_speed_types ->
  atm_shape s sa ->
  density s <> VFloat 0 ->
  (* shapes that do not broadcast together *)
  ((broadcast_shapes (vshape speed) sa = None
    \/ exists s2, broadcast_shapes (vshape speed) sa = Some s2
                  /\ broadcast_shapes s2 (vshape L) = None) ->
   aerodynamic_state speed L speed_type (AtmState s) = Err ShapeMismatch)
  (* shapes that do *)
  /\ (forall s2 s3,
        broadcast_shapes (vshape speed) sa = Some s2 ->
        broadcast_shapes s2 (vshape L) = Some s3 ->
        exists st,
          aerodynamic_state speed L speed_type (AtmState s) = Ok st
          /\ vshape (TAS st) = (if (speed_type =? "TAS")%string
                                then vshape speed else s2)
          /\ vshape (EAS st) = (if (speed_type =? "EAS")%string
                                then vshape speed else s2)
          /\ vshape (mach st) = s2
          /\ vshape (reynolds st) = s3
          /\ vshape (dynamic_pressure st) = s2
          /\ vshape (stagnation_pressure st) = s2)
  (* one common shape, the shape of a scalar included *)
  /\ (vshape speed = sa -> vshape L = sa ->
      exists st,
        aerodynamic_state speed L speed_type (AtmState s) = Ok st
        /\ vshape (TAS st) = sa /\ vshape (EAS st) = sa /\ vshape (mach st) = sa
        /\ vshape (reynolds st) = sa /\ vshape (dynamic_pressure st) = sa
        /\ vshape (stagnation_pressure st) = sa).
Proof.
  intros Hin Hs Hnz.
  pose proof (aerodynamic_state_shapes speed L speed_type s sa Hin Hs Hnz) as G.
  split; [|split].
  - intros [B|[s2 [B1 B2]]].
    + now rewrite B in G.
    + now rewrite B1, B2 in G.
  - intros s2 s3 B1 B2. now rewrite B1, B2 in G.
  - intros E1 E2. rewrite E1, E2, !broadcast_shapes_same in G.
    destruct G as [st [E [G1 [G2 G3]]]]. exists st.
    split; [exact E|]. split; [|split; [|exact G3]].
    + rewrite G1. now destruct (speed_type =? "TAS")%string.
    + rewrite G2. now destruct (speed_type =? "EAS")%string.
Qed.

Lemma output_shapes_follow_broadcasting_witness :
  aerodynamic_state (VArr (mk_ndarray [3%nat] [100; 200; 300]))
    (VArr (mk_ndarray [2%nat] [1; 2])) "TAS" (AtmState sea_level)
  = Err ShapeMismatch.
Proof.
  apply (output_shapes_follow_broadcasting
           (VArr (mk_ndarray [3%nat] [100; 200; 300]))
           (VArr (mk_ndarray [2%nat] [1; 2])) "TAS" sea_level []).
  - cbn. auto.
  - exact sea_level_shape.
  - exact sea_level_density_nonzero.
  - right. exists [3%nat]. split; reflexivity.
Defined.

(** C9 at its failing input.  With a scalar speed, the default atmosphere
    and an array of three characteristic lengths, the only array-shaped
    argument has shape (3,) and the call succeeds; the reynolds field alone
    takes that shape, while TAS, EAS, mach and the two pressures keep the
    shape [()].  The docstring of [aerodynamic_state], "For array inputs,
    each field is a NumPy array of matching shape", does not hold of this
    call. *)
Lemma array_length_scalar_speed :
  exists st,
    aerodynamic_state (VFloat 100) (VArr (mk_ndarray [3%nat] [1; 2; 3])) "TAS" AtmNone
    = Ok st
    /\ vshape (reynolds st) = [3%nat]
    /\ vshape (TAS st) = [] /\ vshape (EAS st) = [] /\ vshape (mach st) = []
    /\ vshape (dynamic_pressure st) = [] /\ vshape (stagnation_pressure st) = []
    /\ vshape (TAS st) <> [3%nat].
Proof.
  rewrite aerodynamic_state_default.
  pose proof (aerodynamic_state_shapes (VFloat 100)
                (VArr (mk_ndarray [3%nat] [1; 2; 3])) "TAS" sea_level []) as G.
  destruct G as [st [E [G1 [G2 [G3 [G4 [G5 G6]]]]]]].
  - cbn. auto.
  - exact sea_level_shape.
  - exact sea_level_density_nonzero.
  - exists st. rewrite G1. repeat split; try assumption. discriminate.
Qed.

(** ** Atmosphere arguments *)

(** A state returned by [isa_atmosphere] has all its fields of the shape of
    the altitude it was computed from. *)
Lemma isa_state_shape (altitude : value) (g : bool) (st : ISAState) :
  isa_atmosphere altitude g = Ok st -> atm_shape st (vshape altitude).
Proof.
  rewrite isa_atmosphere_eq. destruct (range_check _); [discriminate|].
  intros E. injection E as <-.
  unfold atm_shape, point_state.
  cbn [density speed_of_sound dynamic_viscosity pressure].
  destruct altitude; repeat split.
Qed.

(** A sequence of states stands for the state of the stacked fields. *)
Lemma aerodynamic_state_list (speed L : value) (speed_type : string)
    (l : list ISAState) (rho sos mu p : ndarray) (s : ISAState) :
  np_array_list (map density l) = Ok rho ->
  np_array_list (map speed_of_sound l) = Ok sos ->
  np_array_list (map dynamic_viscosity l) = Ok mu ->
  np_array_list (map pressure l) = Ok p ->
  density s = VArr rho -> speed_of_sound s = VArr sos ->
  dynamic_viscosity s = VArr mu -> pressure s = VArr p ->
  aerodynamic_state speed L speed_type (AtmList l)
  = aerodynamic_state speed L speed_type (AtmState s).
Proof.
  intros E1 E2 E3 E4 F1 F2 F3 F4.
  unfold aerodynamic_state. rewrite E1, E2, E3, E4, F1, F2, F3, F4. reflexivity.
Qed.

(** An EAS input at a state whose density is the Python float 0 divides two
    Python floats by zero. *)
Lemma eas_input_zero_density (speed L : value) (s : ISAState) :
  density s = VFloat 0 ->
  aerodynamic_state speed L "EAS" (AtmState s) = Err ZeroDivision.
Proof.
  intros Hz. destruct sea_level_fields as [a0 [mu0 [Fr _]]].
  unfold aerodynamic_state. rewrite sea_level_atmosphere_ok. cbn [bind].
  cbn [existsb allowed_speed_types String.eqb Ascii.eqb Bool.eqb orb negb speed_branch].
  rewrite Fr, Hz, py_div_zero. reflexivity.
Qed.

(** ** Elements of the results of Python's arithmetic *)

Lemma concat_repeat_repeat (c : R) (k n : nat) :
  concat (repeat (repeat c k) n) = repeat c (n * k).
Proof.
  induction n as [|n IH]; [reflexivity|].
  cbn. now rewrite IH, repeat_app.
Qed.

Lemma broadcast_to_scalar (s : list nat) (c : R) :
  broadcast_to s [] [c] = repeat c (size_of_shape s).
Proof.
  induction s as [|n s IH]; [reflexivity|].
  cbn. now rewrite IH, concat_repeat_repeat.
Qed.

Lemma chunks_flat_map (g : list R -> list R) (k n : nat) (d : list R) :
  length d = (n * k)%nat ->
  (forall c, length c = k -> g c = c) ->
  flat_map g (chunks k n d) = d.
Proof.
  intros Hd Hg. revert d Hd. induction n as [|n IH]; intros d Hd.
  - cbn in *. now apply length_zero_iff_nil in Hd.
  - cbn [chunks flat_map].
    rewrite Hg by (rewrite length_firstn; cbn in Hd; lia).
    rewrite IH by (rewrite length_skipn; cbn in Hd; lia).
    apply firstn_skipn.
Qed.

Lemma broadcast_to_same (s : list nat) (d : list R) :
  length d = size_of_shape s -> broadcast_to s s d = d.
Proof.
  revert d. induction s as [|n s IH]; intros d Hd; [reflexivity|].
  cbn [broadcast_to]. rewrite Nat.ltb_irrefl, Nat.eqb_refl.
  apply chunks_flat_map; [exact Hd|]. intros c Hc. now apply IH.
Qed.

Lemma zip_with_repeat_r (f : R -> R -> R) (d : list R) (c : R) :
  zip_with f d (repeat c (length d)) = map (fun x => f x c) d.
Proof. induction d as [|x d IH]; cbn; congruence. Qed.

(** An array and a NumPy scalar: the operation maps over the array. *)
Lemma nd_binop_scalar_r (f : R -> R -> R) (a : ndarray) (c : R) :
  wf_array a ->
  nd_binop f a (nd_scalar c) = Ok (nd_map (fun x => f x c) a).
Proof.
  intros Ha. unfold nd_binop. cbn [shape nd_scalar data].
  rewrite broadcast_shapes_nil_r.
  rewrite broadcast_to_same by exact Ha.
  rewrite broadcast_to_scalar. unfold wf_array in Ha. rewrite <- Ha.
  now rewrite zip_with_repeat_r.
Qed.

Lemma wf_nd_map (f : R -> R) (a : ndarray) : wf_array a -> wf_array (nd_map f a).
Proof. unfold wf_array, nd_map. cbn. now rewrite length_map. Qed.

Lemma wf_asarray_float (x : R) : wf_array (np_asarray (VFloat x)).
Proof. reflexivity. Qed.

(** ** What a successful call computed *)

Ltac invert_binds H :=
  repeat match type of H with
         | bind ?m _ = Ok _ =>
             let E := fresh "E" in
             destruct m eqn:E; cbn [bind] in H; [|discriminate H]
         | (let (_, _) := ?x in _) = Ok _ => destruct x
         end.

Lemma tas_branch_fields (speed L : value) (s : ISAState) (st : AerodynamicState) :
  aerodynamic_state speed L "TAS" (AtmState s) = Ok st ->
  TAS st = VArr (np_asarray speed)
  /\ exists r, py_div (density s) (VFloat rho0) = Ok r
               /\ py_mul (VArr (np_asarray speed)) (np_sqrt r) = Ok (EAS st).
Proof.
  destruct sea_level_fields as [a0 [mu0 [Fr _]]].
  unfold aerodynamic_state. rewrite sea_level_atmosphere_ok. cbn [bind].
  cbn [existsb allowed_speed_types String.eqb Ascii.eqb Bool.eqb orb negb speed_branch].
  rewrite Fr. intros H.
  destruct (py_div (density s) (VFloat rho0)) as [r|] eqn:Er; [|discriminate H].
  cbn [bind] in H.
  destruct (py_mul (VArr (np_asarray speed)) (np_sqrt r)) as [eas|] eqn:Ee;
    [|discriminate H].
  cbn [bind] in H. invert_binds H.
  injection H as <-. cbn [TAS EAS]. split; [reflexivity|]. exists r. now split.
Qed.

Lemma eas_branch_fields (speed L : value) (s : ISAState) (st : AerodynamicState) :
  aerodynamic_state speed L "EAS" (AtmState s) = Ok st ->
  EAS st = VArr (np_asarray speed)
  /\ exists r, py_div (VFloat rho0) (density s) = Ok r
               /\ py_mul (VArr (np_asarray speed)) (np_sqrt r) = Ok (TAS st).
Proof.
  destruct sea_level_fields as [a0 [mu0 [Fr _]]].
  unfold aerodynamic_state. rewrite sea_level_atmosphere_ok. cbn [bind].
  cbn [existsb allowed_speed_types String.eqb Ascii.eqb Bool.eqb orb negb speed_branch].
  rewrite Fr. intros H.
  destruct (py_div (VFloat rho0) (density s)) as [r|] eqn:Er; [|discriminate H].
  cbn [bind] in H.
  destruct (py_mul (VArr (np_asarray speed)) (np_sqrt r)) as [tas|] eqn:Ee;
    [|discriminate H].
  cbn [bind] in H. invert_binds H.
  injection H as <-. cbn [TAS EAS]. split; [reflexivity|]. exists r. now split.
Qed.

Lemma py_div_floats (x y : R) : y <> 0 -> py_div (VFloat x) (VFloat y) = Ok (VFloat (x / y)).
Proof. intros Hy. cbn. now destruct (Req_dec_T y 0). Qed.

Lemma py_mul_array_scalar (a : ndarray) (c : R) :
  wf_array a ->
  py_mul (VArr a) (np_sqrt (VFloat c)) = Ok (VArr (nd_map (fun x => x * sqrt c) a)).
Proof.
  intros Ha.
  change (py_mul (VArr a) (np_sqrt (VFloat c)))
    with (r <- nd_binop Rmult a (nd_scalar (sqrt c)) ;; Ok (VArr r)).
  now rewrite nd_binop_scalar_r.
Qed.

Lemma nd_map_id_ext (f : R -> R) (a : ndarray) :
  (forall x, f x = x) -> nd_map f a = a.
Proof.
  intros Hf. destruct a as [s d]. unfold nd_map. cbn. f_equal.
  rewrite <- (map_id d) at 2. apply map_ext. exact Hf.
Qed.

(** ** The default atmosphere and the airspeed round trip *)

Lemma sqrt_ratio_inverse (x y : R) :
  0 < x -> 0 < y -> sqrt (x / y) * sqrt (y / x) = 1.
Proof.
  intros Hx Hy. rewrite <- sqrt_mult.
  - replace (x / y * (y / x)) with 1 by (field; lra). apply sqrt_1.
  - left. now apply Rdiv_lt_0_compat.
  - left. now apply Rdiv_lt_0_compat.
Qed.

(** C10.  Without an atmosphere argument the call is the call on the state
    the module computed as [sea_level_atmosphere]; and for a TAS input it
    then returns an EAS equal to the input TAS, in shape and in every
    element. *)
Theorem default_atmosphere_is_sea_level (speed L : value) (speed_type : string) :
  aerodynamic_state speed L speed_type AtmNone
  = (s <- sea_level_atmosphere ;; aerodynamic_state speed L speed_type (AtmState s))
  /\ (wf_array (np_asarray speed) ->
      broadcast_shapes (vshape speed) (vshape L) <> None ->
      exists st,
        aerodynamic_state speed L "TAS" AtmNone = Ok st
        /\ TAS st = VArr (np_asarray speed)
        /\ EAS st = VArr (np_asarray speed)).
Proof.
  split.
  - rewrite sea_level_atmosphere_ok. cbn [bind]. apply aerodynamic_state_default.
  - intros Hwf Hbc. rewrite aerodynamic_state_default.
    pose proof (aerodynamic_state_shapes speed L "TAS" sea_level []
                  ltac:(cbn; auto) sea_level_shape sea_level_density_nonzero) as G.
    rewrite broadcast_shapes_nil_r in G.
    destruct (broadcast_shapes (vshape speed) (vshape L)) as [s3|]; [|contradiction].
    destruct G as [st [E _]]. exists st. split; [exact E|].
    destruct (tas_branch_fields _ _ _ _ E) as [ET [r [Er Ee]]].
    split; [exact ET|].
    destruct sea_level_fields as [a0 [mu0 [Fr _]]]. rewrite Fr in Er.
    pose proof rho0_pos as Hpos.
    rewrite py_div_floats in Er by lra. injection Er as <-.
    rewrite py_mul_array_scalar in Ee by exact Hwf. injection Ee as <-.
    f_equal. apply nd_map_id_ext. intros x.
    replace (rho0 / rho0) with 1 by (field; lra). rewrite sqrt_1. lra.
Qed.

Lemma default_atmosphere_is_sea_level_witness :
  exists st,
    aerodynamic_state (VFloat 100) (VFloat 1) "TAS" AtmNone = Ok st
    /\ TAS st = VArr (nd_scalar 100)
    /\ EAS st = VArr (nd_scalar 100).
Proof.
  apply (default_atmosphere_is_sea_level (VFloat 100) (VFloat 1) "TAS").
  - reflexivity.
  - discriminate.
Defined.

(** C7 (exact arithmetic).  At an atmosphere state of scalar fields with a
    positive density, the EAS computed from a TAS, given back as an EAS
    input, yields the TAS that was given: in shape and in every element, and
    so within 1e-6. *)
Theorem tas_eas_tas_round_trip (speed L : value) (atm : ISAState) (rho : R) :
  density atm = VFloat rho ->
  0 < rho ->
  atm_shape atm [] ->
  wf_array (np_asarray speed) ->
  broadcast_shapes (vshape speed) (vshape L) <> None ->
  exists st1 st2,
    aerodynamic_state speed L "TAS" (AtmState atm) = Ok st1
    /\ aerodynamic_state (EAS st1) L "EAS" (AtmState atm) = Ok st2
    /\ TAS st2 = VArr (np_asarray speed)
    /\ Forall2 (fun t' t => Rabs (t' - t) < 1e-6)
               (data (np_asarray (TAS st2))) (data (np_asarray speed)).
Proof.
  intros Hrho Hpos Hshape Hwf Hbc.
  assert (Hnz : density atm <> VFloat 0).
  { rewrite Hrho. intros E. injection E as E. lra. }
  pose proof rho0_pos as Hpos0.
  (* the first call *)
  pose proof (aerodynamic_state_shapes speed L "TAS" atm []
                ltac:(cbn; auto) Hshape Hnz) as G1.
  rewrite broadcast_shapes_nil_r in G1.
  destruct (broadcast_shapes (vshape speed) (vshape L)) as [s3|] eqn:B; [|contradiction].
  destruct G1 as [st1 [E1 _]].
  destruct (tas_branch_fields _ _ _ _ E1) as [_ [r1 [Er1 Ee1]]].
  rewrite Hrho, py_div_floats in Er1 by lra. injection Er1 as <-.
  rewrite py_mul_array_scalar in Ee1 by exact Hwf. injection Ee1 as Ee1.
  (* the second call, on the EAS of the first *)
  pose proof (aerodynamic_state_shapes (EAS st1) L "EAS" atm []
                ltac:(cbn; auto) Hshape Hnz) as G2.
  assert (Hsh : vshape (EAS st1) = vshape speed) by (now rewrite <- Ee1).
  rewrite Hsh, broadcast_shapes_nil_r, B in G2.
  destruct G2 as [st2 [E2 _]].
  destruct (eas_branch_fields _ _ _ _ E2) as [_ [r2 [Er2 Ee2]]].
  rewrite Hrho, py_div_floats in Er2 by lra. injection Er2 as <-.
  rewrite <- Ee1 in Ee2. cbn [np_asarray] in Ee2.
  rewrite py_mul_array_scalar in Ee2 by (apply wf_nd_map; exact Hwf).
  injection Ee2 as Ee2.
  assert (ET : TAS st2 = VArr (np_asarray speed)).
  { rewrite <- Ee2. f_equal.
    destruct (np_asarray speed) as [s d]. unfold nd_map. cbn. f_equal.
    rewrite map_map. rewrite <- (map_id d) at 2. apply map_ext. intros x.
    rewrite Rmult_assoc, sqrt_ratio_inverse by assumption. lra. }
  exists st1, st2. split; [exact E1|]. split; [exact E2|]. split; [exact ET|].
  rewrite ET. cbn [np_asarray].
  induction (data (np_asarray speed)) as [|x d IH]; constructor; [|exact IH].
  rewrite Rminus_diag, Rabs_R0. lra.
Qed.

Lemma tas_eas_tas_round_trip_witness :
  exists st1 st2,
    aerodynamic_state (VFloat 100) (VFloat 1) "TAS" (AtmState sea_level) = Ok st1
    /\ aerodynamic_state (EAS st1) (VFloat 1) "EAS" (AtmState sea_level) = Ok st2
    /\ TAS st2 = VArr (nd_scalar 100).
Proof.
  destruct sea_level_fields as [a0 [mu0 [Fr _]]].
  destruct (tas_eas_tas_round_trip (VFloat 100) (VFloat 1) sea_level rho0 Fr
              rho0_pos sea_level_shape (wf_asarray_float 100))
    as [st1 [st2 [E1 [E2 [ET _]]]]].
  - discriminate.
  - exists st1, st2. repeat split; assumption.
Defined.


(** * Further properties of the atmosphere model *)

(** A property of every element of a field. *)
Definition all_elements (P : R -> Prop) (v : value) : Prop :=
  Forall P (data (np_asarray v)).

(** [geometric2geopotential] divides by [R_EARTH + z].  At [z = -R_EARTH]
    NumPy's quotient is an infinity, which real division does not give, so
    statements about queries by geometric altitude leave that altitude
    out. *)
Definition conversion_defined (geometric : bool) (altitude : value) : Prop :=
  geometric = true -> all_elements (fun z => z <> - R_EARTH) altitude.

Lemma all_elements_vmap (P : R -> Prop) (f : R -> R) (v : value) :
  (forall x, In x (data (np_asarray v)) -> P (f x)) ->
  all_elements P (vmap f v).
Proof.
  intros H. unfold all_elements.
  destruct v as [x|a]; cbn in *.
  - constructor; [apply H; now left|constructor].
  - apply Forall_forall. intros y Hy. apply in_map_iff in Hy as [x [<- Hx]]. now apply H.
Qed.

(** ** Bounds on one element *)

Lemma point_T_bounds (h : R) : in_range h -> 216.65 <= point_T h <= 288.15.
Proof.
  unfold in_range. intros Hh.
  destruct (Rlt_dec h 11000) as [A|A].
  - rewrite (proj1 (point_low h A)). unfold T_low, T0. lra.
  - destruct (Rlt_dec h 20000) as [B|B].
    + rewrite (proj1 (point_mid h ltac:(lra))). unfold T_mid. rewrite Tb_1. lra.
    + rewrite (proj1 (point_high h ltac:(lra))). unfold T_high. rewrite Tb_2. lra.
Qed.

Lemma point_p_pos (h : R) : 0 < point_p h.
Proof.
  destruct pb_pos as [P0 [P1 P2]].
  unfold point_p. destruct (layer_of h) as [|[|n]];
    apply Rmult_lt_0_compat; try assumption; try apply exp_pos.
Qed.

Lemma point_p_at_0 : point_p 0 = p0.
Proof.
  rewrite (proj2 (point_low 0 ltac:(lra))). unfold p_low.
  rewrite Rmult_0_r, Rplus_0_r, Rpower_one. lra.
Qed.

Lemma point_p_bounds (h : R) : in_range h -> 0 < point_p h <= p0.
Proof.
  unfold in_range. intros Hh. split; [apply point_p_pos|].
  rewrite <- point_p_at_0.
  destruct (Req_dec h 0) as [->|Hne]; [lra|].
  left. apply point_p_decreasing. lra.
Qed.

Lemma point_fields_pos (h : R) :
  in_range h ->
  0 < point_rho h /\ 0 < point_a h /\ 0 < point_mu h /\ 0 < point_nu h.
Proof.
  intros Hh. pose proof (point_T_bounds h Hh) as HT.
  pose proof (point_p_pos h) as Hp.
  assert (Hrho : 0 < point_rho h).
  { unfold point_rho. apply Rdiv_lt_0_compat; [exact Hp|]. unfold R_gas. nra. }
  assert (Hmu : 0 < point_mu h).
  { unfold point_mu. apply Rdiv_lt_0_compat; [|lra].
    apply Rmult_lt_0_compat; [lra|apply exp_pos]. }
  repeat split; try assumption.
  - unfold point_a. apply sqrt_lt_R0. unfold gamma_air, R_gas. nra.
  - unfold point_nu. now apply Rdiv_lt_0_compat.
Qed.

Lemma isa_atmosphere_in_range (altitude : value) (g : bool) :
  Forall in_range (geopotential_elements altitude g) ->
  isa_atmosphere altitude g = Ok (point_state g altitude).
Proof.
  intros Hall. rewrite isa_atmosphere_eq.
  rewrite geopotential_elements_eq in Hall. apply range_check_false in Hall.
  now rewrite Hall.
Qed.

Lemma in_range_element (altitude : value) (g : bool) (x : R) :
  Forall in_range (geopotential_elements altitude g) ->
  In x (data (np_asarray altitude)) -> in_range (H_of g x).
Proof.
  rewrite geopotential_elements_eq, Forall_forall. intros Hall Hx.
  apply Hall. now apply in_map.
Qed.

(** X1.  Every state returned for altitudes in range is physical: each
    temperature lies in [216.65, 288.15] K, each pressure in (0, 101325] Pa,
    and density, speed of sound and both viscosities are positive (in exact
    arithmetic; a geometric altitude is not [-R_EARTH]). *)
Theorem state_fields_physical (altitude : value) (geometric : bool) :
  conversion_defined geometric altitude ->
  Forall in_range (geopotential_elements altitude geometric) ->
  exists st,
    isa_atmosphere altitude geometric = Ok st
    /\ all_elements (fun T => 216.65 <= T <= 288.15) (temperature st)
    /\ all_elements (fun p => 0 < p <= 101325) (pressure st)
    /\ all_elements (fun rho => 0 < rho) (density st)
    /\ all_elements (fun a => 0 < a) (speed_of_sound st)
    /\ all_elements (fun mu => 0 < mu) (dynamic_viscosity st)
    /\ all_elements (fun nu => 0 < nu) (kinematic_viscosity st).
Proof.
  intros _ Hall. exists (point_state geometric altitude).
  split; [now apply isa_atmosphere_in_range|].
  unfold point_state.
  cbn [temperature pressure density speed_of_sound dynamic_viscosity
       kinematic_viscosity].
  repeat split; apply all_elements_vmap; intros x Hx;
    pose proof (in_range_element _ _ _ Hall Hx) as Hh.
  - now apply point_T_bounds.
  - pose proof (point_p_bounds _ Hh) as B. unfold p0 in B. lra.
  - now apply point_fields_pos.
  - now apply point_fields_pos.
  - now apply point_fields_pos.
  - now apply point_fields_pos.
Qed.

Lemma state_fields_physical_witness :
  exists st,
    isa_atmosphere (VArr (mk_ndarray [2%nat] [0; 32000])) false = Ok st
    /\ all_elements (fun rho => 0 < rho) (density st).
Proof.
  destruct (state_fields_physical (VArr (mk_ndarray [2%nat] [0; 32000])) false)
    as [st [E [_ [_ [Hrho _]]]]].
  - intros G. discriminate G.
  - cbn. unfold in_range. repeat constructor; lra.
  - exists st. now split.
Defined.


(** X3.  The fields of a returned state satisfy the relations they were
    computed by, element by element: the ideal gas law [p = rho R T], the
    speed of sound [a^2 = gamma R T], and [mu = nu rho]. *)
Theorem state_relations (altitude : value) (geometric : bool) (st : ISAState) :
  isa_atmosphere altitude geometric = Ok st ->
  forall i T p rho a mu nu,
    nth_error (data (np_asarray (temperature st))) i = Some T ->
    nth_error (data (np_asarray (pressure st))) i = Some p ->
    nth_error (data (np_asarray (density st))) i = Some rho ->
    nth_error (data (np_asarray (speed_of_sound st))) i = Some a ->
    nth_error (data (np_asarray (dynamic_viscosity st))) i = Some mu ->
    nth_error (data (np_asarray (kinematic_viscosity st))) i = Some nu ->
    p = rho * R_gas * T /\ a * a = gamma_air * R_gas * T /\ mu = nu * rho.
Proof.
  intros E. pose proof E as E'. rewrite isa_atmosphere_eq in E'.
  destruct (range_check _) eqn:Hr; [discriminate|]. injection E' as <-.
  apply range_check_false in Hr.
  assert (Hx : forall f i y,
             nth_error (data (np_asarray (vmap f altitude))) i = Some y ->
             exists x, nth_error (data (np_asarray altitude)) i = Some x /\ y = f x).
  { intros f i y. destruct altitude as [x|a]; cbn.
    - destruct i as [|i]; cbn; [|destruct i; discriminate].
      intros H. injection H as <-. eauto.
    - rewrite nth_error_map. destruct (nth_error (data a) i); cbn; [|discriminate].
      intros H. injection H as <-. eauto. }
  intros i T p rho a mu nu HT Hp Hrho Ha Hmu Hnu.
  cbn [point_state temperature pressure density speed_of_sound dynamic_viscosity
       kinematic_viscosity] in *.
  apply Hx in HT as [x [Ex ->]]. apply Hx in Hp as [x1 [Ex1 ->]].
  apply Hx in Hrho as [x2 [Ex2 ->]]. apply Hx in Ha as [x3 [Ex3 ->]].
  apply Hx in Hmu as [x4 [Ex4 ->]]. apply Hx in Hnu as [x5 [Ex5 ->]].
  assert (x1 = x /\ x2 = x /\ x3 = x /\ x4 = x /\ x5 = x) as [-> [-> [-> [-> ->]]]]
    by (repeat split; congruence).
  assert (Hh : in_range (H_of geometric x)).
  { rewrite Forall_forall in Hr. apply Hr, in_map, (nth_error_In _ _ Ex). }
  pose proof (point_T_bounds _ Hh) as BT.
  pose proof (point_fields_pos _ Hh) as [Brho [Ba [Bmu Bnu]]].
  repeat split.
  - unfold point_rho. field. unfold R_gas. split; lra.
  - unfold point_a. apply sqrt_sqrt. unfold gamma_air, R_gas. nra.
  - unfold point_nu. field. lra.
Qed.

Lemma state_relations_witness :
  point_p 5000 = point_rho 5000 * R_gas * point_T 5000.
Proof.
  assert (E : isa_atmosphere (VFloat 5000) false = Ok (point_state false (VFloat 5000))).
  { apply isa_atmosphere_scalar. cbn. unfold in_range. lra. }
  exact (proj1 (state_relations (VFloat 5000) false _ E 0
                  (point_T 5000) (point_p 5000) (point_rho 5000)
                  (point_a 5000) (point_mu 5000) (point_nu 5000)
                  eq_refl eq_refl eq_refl eq_refl eq_refl eq_refl)).
Defined.

(** ** Density decreases with altitude *)

(** The density of a scalar query at a geopotential altitude. *)
Definition query_rho (H : R) : option R :=
  match isa_atmosphere (VFloat H) false with
  | Ok s => scalar_of (density s)
  | Err _ => None
  end.

Lemma point_T_on_low h : h <= 11000 -> point_T h = T_low h.
Proof.
  intros Hh. destruct (Rlt_dec h 11000) as [Hlt|Hge].
  - now apply point_low.
  - replace h with 11000 by lra.
    rewrite (proj1 (point_mid 11000 ltac:(lra))). symmetry. apply low_meets_mid.
Qed.

Lemma point_T_on_mid h : 11000 <= h <= 20000 -> point_T h = T_mid h.
Proof.
  intros Hh. destruct (Rlt_dec h 20000) as [Hlt|Hge].
  - apply point_mid. lra.
  - replace h with 20000 by lra.
    rewrite (proj1 (point_high 20000 ltac:(lra))). symmetry. apply mid_meets_high.
Qed.

Lemma point_T_on_high h : 20000 <= h -> point_T h = T_high h.
Proof. intros Hh. now apply point_high. Qed.

(** A function that decreases strictly on [lo, b1], on [b1, b2] and on
    [b2, hi] decreases strictly on [lo, hi]. *)
Lemma decreasing_pieces (f : R -> R) (lo b1 b2 hi : R) :
  lo <= b1 -> b1 <= b2 -> b2 <= hi ->
  (forall x y, lo <= x -> x < y -> y <= b1 -> f y < f x) ->
  (forall x y, b1 <= x -> x < y -> y <= b2 -> f y < f x) ->
  (forall x y, b2 <= x -> x < y -> y <= hi -> f y < f x) ->
  forall x y, lo <= x -> x < y -> y <= hi -> f y < f x.
Proof.
  intros L1 L2 L3 D1 D2 D3.
  assert (D12 : forall x y, lo <= x -> x < y -> y <= b2 -> f y < f x).
  { intros x y Hx Hxy Hy.
    destruct (Rle_dec y b1) as [A|A]; [now apply D1|].
    destruct (Rle_dec b1 x) as [B|B]; [now apply D2|].
    apply Rlt_trans with (f b1); [apply D2; lra|apply D1; lra]. }
  intros x y Hx Hxy Hy.
  destruct (Rle_dec y b2) as [A|A]; [now apply D12|].
  destruct (Rle_dec b2 x) as [B|B]; [now apply D3|].
  apply Rlt_trans with (f b2); [apply D3; lra|apply D12; lra].
Qed.

Lemma Rpower_div_base (u c : R) : 0 < u -> Rpower u c / u = Rpower u (c - 1).
Proof.
  intros Hu. unfold Rminus. rewrite Rpower_plus, Rpower_Ropp, Rpower_1 by exact Hu.
  reflexivity.
Qed.

Lemma point_rho_decreasing (h1 h2 : R) :
  0 <= h1 -> h1 < h2 -> h2 <= 32000 -> point_rho h2 < point_rho h1.
Proof.
  apply (decreasing_pieces point_rho 0 11000 20000 32000); try lra.
  - (* layer 0: rho = p0 / (R T0) * u^(c-1) *)
    intros x y Hx Hxy Hy. unfold point_rho.
    rewrite !point_p_on_low, !point_T_on_low by lra.
    unfold p_low, T_low.
    set (c := g0 / (R_gas * 0.0065)).
    assert (Hc : 1 < c).
    { unfold c, g0, R_gas. lra. }
    assert (E : forall h, h <= 11000 ->
                p0 * Rpower (1 + -0.0065 / T0 * h) c / (R_gas * (T0 + -0.0065 * h))
                = p0 / (R_gas * T0) * Rpower (1 + -0.0065 / T0 * h) (c - 1)).
    { intros h Hh. rewrite <- Rpower_div_base by (unfold T0; lra).
      unfold T0, R_gas. field. lra. }
    rewrite !E by lra.
    apply Rmult_lt_compat_l.
    + unfold p0, R_gas, T0. apply Rdiv_lt_0_compat; lra.
    + apply Rlt_Rpower_l; [lra|]. unfold T0. lra.
  - (* layer 1: constant temperature *)
    intros x y Hx Hxy Hy. unfold point_rho.
    rewrite !point_p_on_mid, !point_T_on_mid by lra.
    unfold T_mid. rewrite Tb_1.
    apply Rmult_lt_compat_r.
    + apply Rinv_0_lt_compat. unfold R_gas. lra.
    + now apply p_mid_decreasing.
  - (* layer 2: the pressure falls and the temperature rises *)
    intros x y Hx Hxy Hy. unfold point_rho.
    rewrite !point_p_on_high, !point_T_on_high by lra.
    pose proof (p_high_decreasing x y Hx Hxy) as Hp.
    assert (Hpy : 0 < p_high y).
    { rewrite <- point_p_on_high by lra. apply point_p_pos. }
    unfold T_high. rewrite Tb_2.
    apply Rlt_trans with (p_high y / (R_gas * (216.65 - 20 + 0.001 * x))).
    + unfold Rdiv. apply Rmult_lt_compat_l; [exact Hpy|].
      apply Rinv_lt_contravar; unfold R_gas; nra.
    + apply Rmult_lt_compat_r; [|exact Hp].
      apply Rinv_0_lt_compat. unfold R_gas. nra.
Qed.

(** X4.  The density of the query is strictly decreasing in geopotential
    altitude over [0, 32000] (in exact arithmetic), and so never above the
    sea-level density [rho0]. *)
Theorem density_strictly_decreasing (H1 H2 : R) :
  0 <= H1 -> H1 < H2 -> H2 <= 32000 ->
  exists r1 r2,
    query_rho H1 = Some r1 /\ query_rho H2 = Some r2 /\ r2 < r1 /\ r1 <= rho0.
Proof.
  intros L0 L12 L2.
  assert (Q : forall h, in_range h -> query_rho h = Some (point_rho h)).
  { intros h Hh. unfold query_rho. now rewrite (isa_atmosphere_scalar h false Hh). }
  exists (point_rho H1), (point_rho H2).
  split; [apply Q; unfold in_range; lra|].
  split; [apply Q; unfold in_range; lra|].
  split; [now apply point_rho_decreasing|].
  assert (E0 : point_rho 0 = rho0).
  { unfold point_rho, rho0. rewrite point_p_on_low, point_T_on_low by lra.
    unfold p_low, T_low. rewrite !Rmult_0_r, !Rplus_0_r, Rpower_one. f_equal. lra. }
  rewrite <- E0. destruct (Req_dec H1 0) as [->|Hne]; [lra|].
  left. apply point_rho_decreasing; lra.
Qed.

Lemma density_strictly_decreasing_witness :
  exists r1 r2,
    query_rho 10000 = Some r1 /\ query_rho 25000 = Some r2 /\ r2 < r1 /\ r1 <= rho0.
Proof. apply (density_strictly_decreasing 10000 25000); lra. Defined.

(** ** The two altitude kinds *)




Lemma vmap_ext_in (f g : R -> R) (v : value) :
  (forall x, In x (data (np_asarray v)) -> f x = g x) -> vmap f v = vmap g v.
Proof.
  intros H. destruct v as [x|a]; cbn in *.
  - f_equal. apply H. now left.
  - unfold nd_map. f_equal. f_equal. now apply map_ext_in.
Qed.





Lemma H_of_true_increasing (z1 z2 : R) :
  - R_EARTH < z1 -> z1 < z2 -> H_of true z1 < H_of true z2.
Proof.
  intros H1 H12. cbn. unfold R_EARTH in *.
  apply Rmult_lt_reg_r with ((6356766.0 + z1) * (6356766.0 + z2)); [nra|].
  replace (6356766.0 * z1 / (6356766.0 + z1) * ((6356766.0 + z1) * (6356766.0 + z2)))
    with (6356766.0 * z1 * (6356766.0 + z2)) by (field; lra).
  replace (6356766.0 * z2 / (6356766.0 + z2) * ((6356766.0 + z1) * (6356766.0 + z2)))
    with (6356766.0 * z2 * (6356766.0 + z1)) by (field; lra).
  nra.
Qed.

(** X6.  In exact arithmetic: for a geometric altitude [z >= 0] the
    geopotential altitude lies in [0, z] and below [R_EARTH]; and the
    conversion is strictly increasing above [-R_EARTH].  (Rounding is not part
    of the statement: on binary64 numbers neighbouring altitudes can be
    converted out of order and a huge one overflows,
    [Binary64Altitude.conversion_rounds_binary64].) *)
Theorem geopotential_below_geometric :
  (forall z, 0 <= z ->
     exists H, geometric2geopotential (VFloat z) = VFloat H
               /\ 0 <= H <= z /\ H < R_EARTH)
  /\ (forall z1 z2, - R_EARTH < z1 -> z1 < z2 ->
        exists H1 H2,
          geometric2geopotential (VFloat z1) = VFloat H1
          /\ geometric2geopotential (VFloat z2) = VFloat H2
          /\ H1 < H2).
Proof.
  split.
  - intros z Hz. exists (H_of true z). split; [reflexivity|].
    cbn. unfold R_EARTH.
    assert (E : 6356766.0 * z / (6356766.0 + z) = z - z * z / (6356766.0 + z))
      by (field; lra).
    assert (Q : 0 <= z * z / (6356766.0 + z)).
    { apply Rmult_le_pos; [nra|]. left. apply Rinv_0_lt_compat. lra. }
    assert (P : 0 <= 6356766.0 * z / (6356766.0 + z)).
    { apply Rmult_le_pos; [nra|]. left. apply Rinv_0_lt_compat. lra. }
    assert (B : 6356766.0 * z / (6356766.0 + z) < 6356766.0).
    { apply Rmult_lt_reg_r with (6356766.0 + z); [lra|].
      replace (6356766.0 * z / (6356766.0 + z) * (6356766.0 + z))
        with (6356766.0 * z) by (field; lra).
      nra. }
    lra.
  - intros z1 z2 H1 H12. exists (H_of true z1), (H_of true z2).
    split; [reflexivity|]. split; [reflexivity|]. now apply H_of_true_increasing.
Qed.

Lemma geopotential_below_geometric_witness :
  exists H, geometric2geopotential (VFloat 32000) = VFloat H
            /\ 0 <= H <= 32000 /\ H < R_EARTH.
Proof. apply (proj1 geopotential_below_geometric 32000). lra. Defined.

(** The largest geometric altitude in range: [geopotential2geometric(32000)]. *)
Definition z_max : R := R_EARTH * 32000 / (R_EARTH - 32000).

Lemma H_of_z_max : H_of true z_max = 32000.
Proof. unfold z_max. cbn. unfold R_EARTH. field. lra. Qed.

Lemma isa_atmosphere_scalar_error (x : R) (g : bool) :
  isa_atmosphere (VFloat x) g = Err OutOfRange <-> ~ in_range (H_of g x).
Proof.
  rewrite isa_atmosphere_eq. cbn [np_asarray nd_scalar data map].
  destruct (range_check [H_of g x]) eqn:E.
  - split; [|reflexivity]. intros _ Hin.
    assert (range_check [H_of g x] = false)
      by (apply range_check_false; now constructor).
    congruence.
  - split; [discriminate|]. intros Hn. exfalso. apply Hn.
    apply range_check_false in E. now inversion E.
Qed.

(** X7.  With [geometric=True] the range check is on the converted
    altitude, so geometric altitudes above 32000 m are still accepted, up to
    [z_max = geopotential2geometric(32000)], a little below 32162 m: for a
    finite altitude [z] other than [-R_EARTH], in exact arithmetic, the call
    fails exactly for [z < 0] and for [z > z_max].  (The statement is about
    real numbers.  At [z = -R_EARTH] the code divides by zero and NumPy's
    [-inf] is refused; an infinite [z] is converted to a NaN, which the check
    lets pass: [Binary64Altitude.pole_refused_binary64] and
    [Binary64Altitude.infinite_altitude_accepted_binary64].) *)
Theorem geometric_altitude_range (z : R) :
  z <> - R_EARTH ->
  (isa_atmosphere (VFloat z) true = Err OutOfRange <-> z < 0 \/ z_max < z)
  /\ 32161 < z_max < 32162.
Proof.
  intros Hz.
  assert (Hm : 32161 < z_max < 32162).
  { unfold z_max, R_EARTH. split.
    - apply Rmult_lt_reg_r with (6356766.0 - 32000); [lra|].
      replace (6356766.0 * 32000 / (6356766.0 - 32000) * (6356766.0 - 32000))
        with (6356766.0 * 32000) by (field; lra). lra.
    - apply Rmult_lt_reg_r with (6356766.0 - 32000); [lra|].
      replace (6356766.0 * 32000 / (6356766.0 - 32000) * (6356766.0 - 32000))
        with (6356766.0 * 32000) by (field; lra). lra. }
  split; [|exact Hm].
  rewrite isa_atmosphere_scalar_error. unfold in_range.
  assert (H0 : H_of true 0 = 0) by (cbn; unfold R_EARTH; lra).
  destruct (Rlt_dec z (- R_EARTH)) as [A|A].
  - (* below -R_EARTH the conversion is above R_EARTH *)
    assert (B : R_EARTH < H_of true z).
    { cbn. unfold R_EARTH in *.
      assert (E : 6356766.0 * z / (6356766.0 + z)
                  = 6356766.0 + 6356766.0 * 6356766.0 * / (- (6356766.0 + z)))
        by (field; lra).
      rewrite E.
      assert (0 < / (- (6356766.0 + z))) by (apply Rinv_0_lt_compat; lra).
      nra. }
    unfold R_EARTH in *. split; [intros _; left; lra|intros _; lra].
  - assert (A' : - R_EARTH < z) by lra.
    destruct (Rlt_dec z 0) as [B|B].
    + pose proof (H_of_true_increasing z 0 A' B). split; [auto|]. intros _. lra.
    + destruct (Rlt_dec z_max z) as [C|C].
      * assert (- R_EARTH < z_max) by (unfold R_EARTH; lra).
        pose proof (H_of_true_increasing z_max z H C) as D.
        rewrite H_of_z_max in D. split; [auto|]. intros _. lra.
      * split; [|intros [?|?]; lra]. intros Hn. exfalso. apply Hn.
        split.
        -- destruct (Req_dec z 0) as [->|Hne]; [lra|].
           pose proof (H_of_true_increasing 0 z ltac:(unfold R_EARTH; lra) ltac:(lra)).
           lra.
        -- destruct (Req_dec z z_max) as [->|Hne]; [rewrite H_of_z_max; lra|].
           pose proof (H_of_true_increasing z z_max A' ltac:(lra)) as D.
           rewrite H_of_z_max in D. lra.
Qed.

Lemma geometric_altitude_range_witness :
  isa_atmosphere (VFloat 32100) true <> Err OutOfRange.
Proof.
  intros E.
  destruct (geometric_altitude_range 32100) as [[Hs _] [Hlo _]].
  - unfold R_EARTH. lra.
  - destruct (Hs E) as [?|?]; lra.
Defined.



(** ** constants.py and the sea-level state *)

Lemma constants_sea_level_values :
  point_rho 0 = rho0 /\ point_p 0 = p0 /\ point_T 0 = T0.
Proof.
  assert (ET : point_T 0 = T0).
  { rewrite (proj1 (point_low 0 ltac:(lra))). unfold T_low. lra. }
  repeat split; try assumption; [|apply point_p_at_0].
  unfold point_rho, rho0. now rewrite ET, point_p_at_0.
Qed.

(** X9.  The sea-level constants of [constants.py] are the fields of
    [sea_level_atmosphere]: temperature [T0], pressure [p0], density [rho0]
    and speed of sound [a0] (in exact arithmetic, where the power [0.5] of
    [constants.py] is the square root that [isa_atmosphere] takes). *)
Theorem constants_match_sea_level :
  exists st,
    sea_level_atmosphere = Ok st
    /\ temperature st = VFloat T0
    /\ pressure st = VFloat p0
    /\ density st = VFloat rho0
    /\ speed_of_sound st = VFloat a0.
Proof.
  exists sea_level. split; [apply sea_level_atmosphere_ok|].
  assert (H0 : H_of true 0 = 0) by (cbn; unfold R_EARTH; lra).
  assert (ET : point_T 0 = T0).
  { rewrite (proj1 (point_low 0 ltac:(lra))). unfold T_low. lra. }
  unfold sea_level, point_state.
  cbn [temperature pressure density speed_of_sound vmap]. rewrite H0.
  repeat split; f_equal.
  - exact ET.
  - apply point_p_at_0.
  - unfold point_rho, rho0. now rewrite ET, point_p_at_0.
  - unfold point_a, a0. rewrite ET.
    replace 0.5 with (/ 2) by lra. symmetry. apply Rpower_sqrt.
    unfold gamma_air, R_gas, T0. lra.
Qed.

(** ** The uninitialised buffers *)

(** The three masked assignments of [isa_atmosphere], from given contents
    [T] and [p] of the buffers that [np.empty_like] allocates. *)
Definition fill_layers (hs T p : list R) : list R * list R :=
  let layer := map layer_of hs in
  let idx0 := map (Nat.eqb 0) layer in
  let '(T, p) :=
    if np_any idx0 then
      let '(Tn, pn) := _isa_gradient (compress idx0 hs)
                         (idx _Hb 0) (idx _Tb 0) (idx _pb 0) (idx _lapserate 0) in
      (scatter idx0 Tn T, scatter idx0 pn p)
    else (T, p) in
  let idx1 := map (Nat.eqb 1) layer in
  let '(T, p) :=
    if np_any idx1 then
      let '(Tn, pn) := _isa_isothermal (compress idx1 hs)
                         (idx _Hb 1) (idx _Tb 1) (idx _pb 1) in
      (scatter idx1 Tn T, scatter idx1 pn p)
    else (T, p) in
  let idx2 := map (Nat.eqb 2) layer in
  let '(T, p) :=
    if np_any idx2 then
      let '(Tn, pn) := _isa_gradient (compress idx2 hs)
                         (idx _Hb 2) (idx _Tb 2) (idx _pb 2) (idx _lapserate 2) in
      (scatter idx2 Tn T, scatter idx2 pn p)
    else (T, p) in
  (T, p).

(** The elements where the mask holds are computed, the others kept. *)
Fixpoint merge_where (c : R -> bool) (f : R -> R) (hs old : list R) : list R :=
  match hs, old with
  | h :: hs', o :: old' => (if c h then f h else o) :: merge_where c f hs' old'
  | _, _ => old
  end.

Lemma masked_pass_on (c : R -> bool) (f : R -> R) (hs old : list R) :
  length old = length hs ->
  (if np_any (map c hs)
   then scatter (map c hs) (map f (compress (map c hs) hs)) old
   else old)
  = merge_where c f hs old.
Proof.
  intros Hl.
  assert (E : scatter (map c hs) (map f (compress (map c hs) hs)) old
              = merge_where c f hs old).
  { revert old Hl. induction hs as [|h hs IH]; intros [|o old] Hl;
      try discriminate; try reflexivity.
    cbn [map compress scatter merge_where].
    destruct (c h); cbn [map]; f_equal; apply IH; now injection Hl. }
  destruct (np_any (map c hs)) eqn:A; [exact E|].
  rewrite <- E. symmetry. now apply scatter_no_true.
Qed.

Lemma length_merge_where (c : R -> bool) (f : R -> R) (hs old : list R) :
  length (merge_where c f hs old) = length old.
Proof.
  revert old. induction hs as [|h hs IH]; intros [|o old]; cbn; try reflexivity.
  now rewrite IH.
Qed.

Lemma merge_three (hs old : list R) (f0 f1 f2 : R -> R) :
  length old = length hs ->
  merge_where (fun h => (2 =? layer_of h)%nat) f2 hs
    (merge_where (fun h => (1 =? layer_of h)%nat) f1 hs
       (merge_where (fun h => (0 =? layer_of h)%nat) f0 hs old))
  = map (fun h => match layer_of h with
                  | 0%nat => f0 h | 1%nat => f1 h | _ => f2 h end) hs.
Proof.
  revert old. induction hs as [|h hs IH]; intros [|o old] Hl; try discriminate;
    [reflexivity|].
  cbn [merge_where map]. f_equal; [|apply IH; now injection Hl].
  destruct (layer_of_cases h) as [E|[E|E]]; rewrite E; reflexivity.
Qed.

(** X10.  What [np.empty_like] leaves in the buffers never reaches a result:
    the three masked assignments overwrite every element, so whatever the
    buffers [T] and [p] held, they end as the temperatures and pressures of
    the altitudes. *)
Theorem buffers_fully_overwritten (hs T p : list R) :
  length T = length hs -> length p = length hs ->
  fill_layers hs T p = (map point_T hs, map point_p hs).
Proof.
  intros HT Hp. unfold fill_layers, _isa_gradient, _isa_isothermal.
  cbv beta iota zeta.
  rewrite !map_map, !if_pair.
  rewrite !(masked_pass_on (fun h => (0 =? layer_of h)%nat)) by assumption.
  rewrite !(masked_pass_on (fun h => (1 =? layer_of h)%nat))
    by (rewrite length_merge_where; assumption).
  rewrite !(masked_pass_on (fun h => (2 =? layer_of h)%nat))
    by (rewrite !length_merge_where; assumption).
  rewrite !merge_three by assumption. reflexivity.
Qed.

Lemma buffers_fully_overwritten_witness :
  fill_layers [0; 15000; 25000] [7; 7; 7] [9; 9; 9]
  = (map point_T [0; 15000; 25000], map point_p [0; 15000; 25000]).
Proof. apply (buffers_fully_overwritten [0; 15000; 25000]); reflexivity. Defined.

(** * Further properties of the aerodynamic state

    The numbers of a [value] are floats.  [np.array(speed)] and
    [np.array(characteristic_length)] carry no [dtype=float], so a Python
    int given for either is kept by NumPy in an integer array (or, beyond 64
    bits, an object array), with integer arithmetic; the statements of this
    part are about floats and arrays of floats. *)

(** ** A scalar atmosphere state and a scalar characteristic length *)

Lemma zip_with_repeat_l (f : R -> R -> R) (d : list R) (c : R) :
  zip_with f (repeat c (length d)) d = map (f c) d.
Proof. induction d as [|x d IH]; cbn; congruence. Qed.

Lemma nd_binop_scalar_l (f : R -> R -> R) (a : ndarray) (c : R) :
  wf_array a ->
  nd_binop f (nd_scalar c) a = Ok (nd_map (f c) a).
Proof.
  intros Ha. unfold nd_binop. cbn [shape nd_scalar data].
  rewrite broadcast_shapes_nil_l.
  rewrite broadcast_to_same by exact Ha.
  rewrite broadcast_to_scalar. unfold wf_array in Ha. rewrite <- Ha.
  now rewrite zip_with_repeat_l.
Qed.

Lemma py_binop_arr_float (f : R -> R -> R) (a : ndarray) (c : R) :
  wf_array a ->
  py_binop f (VArr a) (VFloat c) = Ok (VArr (nd_map (fun x => f x c) a)).
Proof.
  intros Ha. cbn [py_binop np_asarray]. now rewrite nd_binop_scalar_r.
Qed.

Lemma py_binop_arr_scalar (f : R -> R -> R) (a : ndarray) (c : R) :
  wf_array a ->
  py_binop f (VArr a) (VArr (nd_scalar c)) = Ok (VArr (nd_map (fun x => f x c) a)).
Proof.
  intros Ha. cbn [py_binop np_asarray]. now rewrite nd_binop_scalar_r.
Qed.

Lemma py_binop_float_arr (f : R -> R -> R) (c : R) (a : ndarray) :
  wf_array a ->
  py_binop f (VFloat c) (VArr a) = Ok (VArr (nd_map (f c) a)).
Proof.
  intros Ha. cbn [py_binop np_asarray]. now rewrite nd_binop_scalar_l.
Qed.

Lemma py_div_arr_float (a : ndarray) (c : R) :
  wf_array a ->
  py_div (VArr a) (VFloat c) = Ok (VArr (nd_map (fun x => x / c) a)).
Proof.
  intros Ha. cbn [py_div np_asarray]. now rewrite nd_binop_scalar_r.
Qed.

Lemma nd_map_map (f g : R -> R) (a : ndarray) :
  nd_map f (nd_map g a) = nd_map (fun x => f (g x)) a.
Proof. unfold nd_map. cbn. now rewrite map_map. Qed.

(** The state of scalar fields that [aerodynamic_state] reads. *)
Definition scalar_atmosphere (s : ISAState) (rho sos mu p : R) : Prop :=
  density s = VFloat rho /\ speed_of_sound s = VFloat sos
  /\ dynamic_viscosity s = VFloat mu /\ pressure s = VFloat p.

(** The fields derived from the true airspeeds [tas]. *)
Definition derived_fields (tas eas : ndarray) (rho sos mu p L : R)
    : AerodynamicState :=
  mk_AerodynamicState
    (VArr tas) (VArr eas)
    (VArr (nd_map (fun t => t / sos) tas))
    (VArr (nd_map (fun t => t * rho * L / mu) tas))
    (VArr (nd_map (fun t => 0.5 * rho * t ^ 2) tas))
    (VArr (nd_map (fun t => 0.5 * rho * t ^ 2 + p) tas)).

Lemma aero_tail (tas eas : ndarray) (rho sos mu p L : R) :
  wf_array tas ->
  (mach <- py_div (VArr tas) (VFloat sos) ;;
   t1 <- py_mul (VArr tas) (VFloat rho) ;;
   t2 <- py_mul t1 (VArr (np_asarray (VFloat L))) ;;
   reynolds <- py_div t2 (VFloat mu) ;;
   h <- py_mul (VFloat 0.5) (VFloat rho) ;;
   dynamic_pressure <- py_mul h (np_square (VArr tas)) ;;
   stagnation_pressure <- py_add dynamic_pressure (VFloat p) ;;
   Ok (mk_AerodynamicState (VArr tas) (VArr eas) mach reynolds dynamic_pressure
         stagnation_pressure))
  = Ok (derived_fields tas eas rho sos mu p L).
Proof.
  intros Ha.
  rewrite py_div_arr_float by exact Ha. cbn [bind].
  unfold py_mul at 1. rewrite py_binop_arr_float by exact Ha. cbn [bind].
  unfold py_mul at 1. cbn [np_asarray].
  rewrite py_binop_arr_scalar by (apply wf_nd_map; exact Ha). cbn [bind].
  rewrite py_div_arr_float by (do 2 apply wf_nd_map; exact Ha). cbn [bind].
  unfold py_mul at 1. cbn [py_binop bind].
  unfold py_mul at 1, np_square. cbn [np_asarray].
  rewrite py_binop_float_arr by (apply wf_nd_map; exact Ha). cbn [bind].
  unfold py_add. rewrite py_binop_arr_float by (do 2 apply wf_nd_map; exact Ha).
  cbn [bind]. rewrite !nd_map_map. reflexivity.
Qed.

Lemma aerodynamic_state_tas (speed : value) (L : R) (s : ISAState)
    (rho sos mu p : R) :
  scalar_atmosphere s rho sos mu p ->
  wf_array (np_asarray speed) ->
  aerodynamic_state speed (VFloat L) "TAS" (AtmState s)
  = Ok (derived_fields (np_asarray speed)
          (nd_map (fun t => t * sqrt (rho / rho0)) (np_asarray speed))
          rho sos mu p L).
Proof.
  intros [Hrho [Hsos [Hmu Hp]]] Ha.
  destruct sea_level_fields as [a0' [mu0 [Fr _]]].
  unfold aerodynamic_state; rewrite sea_level_atmosphere_ok; cbn [bind].
  cbn [existsb allowed_speed_types String.eqb Ascii.eqb Bool.eqb orb negb
         speed_branch].
  rewrite Fr, Hrho, Hsos, Hmu, Hp.
  rewrite py_div_floats by (pose proof rho0_pos; lra). cbn [bind].
  rewrite py_mul_array_scalar by exact Ha. cbn [bind].
  now apply aero_tail.
Qed.

Lemma aerodynamic_state_eas (speed : value) (L : R) (s : ISAState)
    (rho sos mu p : R) :
  scalar_atmosphere s rho sos mu p ->
  rho <> 0 ->
  wf_array (np_asarray speed) ->
  aerodynamic_state speed (VFloat L) "EAS" (AtmState s)
  = Ok (derived_fields
          (nd_map (fun e => e * sqrt (rho0 / rho)) (np_asarray speed))
          (np_asarray speed) rho sos mu p L).
Proof.
  intros [Hrho [Hsos [Hmu Hp]]] Hnz Ha.
  destruct sea_level_fields as [a0' [mu0 [Fr _]]].
  unfold aerodynamic_state; rewrite sea_level_atmosphere_ok; cbn [bind].
  cbn [existsb allowed_speed_types String.eqb Ascii.eqb Bool.eqb orb negb
         speed_branch].
  rewrite Fr, Hrho, Hsos, Hmu, Hp.
  rewrite py_div_floats by exact Hnz. cbn [bind].
  rewrite py_mul_array_scalar by exact Ha. cbn [bind].
  apply aero_tail. now apply wf_nd_map.
Qed.

Lemma aerodynamic_state_mach (speed : value) (L : R) (s : ISAState)
    (rho sos mu p : R) :
  scalar_atmosphere s rho sos mu p ->
  wf_array (np_asarray speed) ->
  aerodynamic_state speed (VFloat L) "mach" (AtmState s)
  = Ok (derived_fields
          (nd_map (fun m => m * sos) (np_asarray speed))
          (nd_map (fun m => m * sos * sqrt (rho / rho0)) (np_asarray speed))
          rho sos mu p L).
Proof.
  intros [Hrho [Hsos [Hmu Hp]]] Ha.
  destruct sea_level_fields as [a0' [mu0 [Fr _]]].
  unfold aerodynamic_state; rewrite sea_level_atmosphere_ok; cbn [bind].
  cbn [existsb allowed_speed_types String.eqb Ascii.eqb Bool.eqb orb negb
         speed_branch].
  rewrite Fr, Hrho, Hsos, Hmu, Hp.
  unfold py_mul at 1. rewrite py_binop_arr_float by exact Ha. cbn [bind].
  rewrite py_div_floats by (pose proof rho0_pos; lra). cbn [bind].
  rewrite py_mul_array_scalar by (apply wf_nd_map; exact Ha). cbn [bind].
  rewrite nd_map_map. apply aero_tail. now apply wf_nd_map.
Qed.

Lemma sea_level_scalar :
  exists a mu, scalar_atmosphere sea_level rho0 a mu p0 /\ 0 < a /\ 0 < mu.
Proof.
  assert (H0 : H_of true 0 = 0) by (cbn; unfold R_EARTH; lra).
  assert (Hr : in_range 0) by (unfold in_range; lra).
  destruct (point_fields_pos 0 Hr) as [_ [Ha [Hmu _]]].
  exists (point_a 0), (point_mu 0). split; [|now split].
  destruct constants_sea_level_values as [E1 [E2 _]].
  unfold scalar_atmosphere, sea_level, point_state.
  cbn [density speed_of_sound dynamic_viscosity pressure vmap]. rewrite H0.
  repeat split; f_equal; assumption.
Qed.

(** X11.  A Mach-number input is returned as the [mach] field: at a state of
    scalar fields with a nonzero speed of sound, [TAS = mach * a] and
    [TAS / a] is the Mach number that was given, in shape and in every
    element (in exact arithmetic). *)
Theorem mach_input_recovered (speed : value) (L : R) (s : ISAState)
    (rho sos mu p : R) :
  scalar_atmosphere s rho sos mu p ->
  sos <> 0 ->
  wf_array (np_asarray speed) ->
  exists st,
    aerodynamic_state speed (VFloat L) "mach" (AtmState s) = Ok st
    /\ mach st = VArr (np_asarray speed)
    /\ TAS st = VArr (nd_map (fun m => m * sos) (np_asarray speed)).
Proof.
  intros Hs Hsos Ha. eexists.
  split; [exact (aerodynamic_state_mach _ _ _ _ _ _ _ Hs Ha)|].
  cbn [derived_fields mach TAS]. split; [|reflexivity].
  f_equal. rewrite nd_map_map. apply nd_map_id_ext. intros x. field. exact Hsos.
Qed.

Lemma mach_input_recovered_witness :
  exists st,
    aerodynamic_state (VFloat 0.5) (VFloat 1) "mach" (AtmState sea_level) = Ok st
    /\ mach st = VArr (nd_scalar 0.5).
Proof.
  destruct sea_level_scalar as [a [mu [Hs [Ha Hmu]]]].
  destruct (mach_input_recovered (VFloat 0.5) 1 sea_level rho0 a mu p0 Hs)
    as [st [E [Hm _]]].
  - lra.
  - reflexivity.
  - exists st. now split.
Defined.

(** X12.  At the default atmosphere true and equivalent airspeed coincide
    for every valid speed type: an EAS input is returned as TAS and as EAS,
    and a Mach input gives [TAS = EAS = mach * a] with [a] the sea-level
    speed of sound. *)
Theorem sea_level_tas_equals_eas (speed : value) (L : R) (speed_type : string) :
  In speed_type allowed_speed_types ->
  wf_array (np_asarray speed) ->
  exists st a,
    aerodynamic_state speed (VFloat L) speed_type AtmNone = Ok st
    /\ speed_of_sound sea_level = VFloat a
    /\ TAS st = EAS st
    /\ TAS st = VArr (if (speed_type =? "mach")%string
                      then nd_map (fun m => m * a) (np_asarray speed)
                      else np_asarray speed).
Proof.
  intros Hin Ha.
  destruct sea_level_scalar as [a [mu [Hs [Hpa Hmu]]]].
  pose proof rho0_pos as Hr.
  assert (E1 : sqrt (rho0 / rho0) = 1).
  { replace (rho0 / rho0) with 1 by (field; lra). apply sqrt_1. }
  assert (Ha' : speed_of_sound sea_level = VFloat a) by apply Hs.
  rewrite aerodynamic_state_default.
  destruct Hin as [<-|[<-|[<-|[]]]]; eexists; exists a.
  - split; [exact (aerodynamic_state_tas _ _ _ _ _ _ _ Hs Ha)|].
    split; [exact Ha'|]. cbn [derived_fields TAS EAS String.eqb Ascii.eqb Bool.eqb].
    split; [|reflexivity]. f_equal. symmetry. apply nd_map_id_ext.
    intros x. rewrite E1. lra.
  - split; [apply (aerodynamic_state_eas _ _ _ _ _ _ _ Hs); [lra|exact Ha]|].
    split; [exact Ha'|]. cbn [derived_fields TAS EAS String.eqb Ascii.eqb Bool.eqb].
    assert (E : nd_map (fun e => e * sqrt (rho0 / rho0)) (np_asarray speed)
                = np_asarray speed).
    { apply nd_map_id_ext. intros x. rewrite E1. lra. }
    rewrite E. split; reflexivity.
  - split; [exact (aerodynamic_state_mach _ _ _ _ _ _ _ Hs Ha)|].
    split; [exact Ha'|]. cbn [derived_fields TAS EAS String.eqb Ascii.eqb Bool.eqb].
    split; [|reflexivity]. f_equal. unfold nd_map. f_equal.
    apply map_ext. intros x. rewrite E1. lra.
Qed.

Lemma sea_level_tas_equals_eas_witness :
  exists st,
    aerodynamic_state (VFloat 100) (VFloat 1) "EAS" AtmNone = Ok st
    /\ TAS st = EAS st /\ TAS st = VArr (nd_scalar 100).
Proof.
  destruct (sea_level_tas_equals_eas (VFloat 100) 1 "EAS")
    as [st [a [E [_ [H1 H2]]]]].
  - cbn. auto.
  - reflexivity.
  - exists st. repeat split; assumption.
Defined.

(** X13.  For a speed given as a float or an array of floats, in exact
    arithmetic: at a state of positive density the dynamic pressure is never
    negative and the stagnation pressure never below the static pressure of
    the state, whatever the sign of the speed; each stagnation pressure is
    the dynamic pressure of its element plus the static pressure.  (A speed
    given as a Python int is outside the statement: [np.array(speed)] keeps
    it as an integer array, and the square of an integer array can wrap
    around.) *)
Theorem stagnation_not_below_static (speed : value) (L : R) (speed_type : string)
    (s : ISAState) (rho sos mu p : R) :
  In speed_type allowed_speed_types ->
  scalar_atmosphere s rho sos mu p ->
  0 < rho ->
  wf_array (np_asarray speed) ->
  exists st,
    aerodynamic_state speed (VFloat L) speed_type (AtmState s) = Ok st
    /\ all_elements (fun q => 0 <= q) (dynamic_pressure st)
    /\ all_elements (fun pt => p <= pt) (stagnation_pressure st)
    /\ Forall2 (fun pt q => pt = q + p)
               (data (np_asarray (stagnation_pressure st)))
               (data (np_asarray (dynamic_pressure st))).
Proof.
  intros Hin Hs Hrho Ha.
  assert (G : forall tas eas,
             let st := derived_fields tas eas rho sos mu p L in
             all_elements (fun q => 0 <= q) (dynamic_pressure st)
             /\ all_elements (fun pt => p <= pt) (stagnation_pressure st)
             /\ Forall2 (fun pt q => pt = q + p)
                        (data (np_asarray (stagnation_pressure st)))
                        (data (np_asarray (dynamic_pressure st)))).
  { intros tas eas. cbn. unfold all_elements. cbn.
    assert (Q : forall t, 0 <= 0.5 * rho * (t * (t * 1))) by (intros t; nra).
    repeat split.
    - apply Forall_forall. intros y Hy. apply in_map_iff in Hy as [t [<- _]]. apply Q.
    - apply Forall_forall. intros y Hy. apply in_map_iff in Hy as [t [<- _]].
      specialize (Q t). lra.
    - induction (data tas) as [|t d IH]; cbn; constructor; auto. }
  destruct Hin as [<-|[<-|[<-|[]]]]; eexists.
  - split; [exact (aerodynamic_state_tas _ _ _ _ _ _ _ Hs Ha)|]. apply G.
  - split; [apply (aerodynamic_state_eas _ _ _ _ _ _ _ Hs); [lra|exact Ha]|]. apply G.
  - split; [exact (aerodynamic_state_mach _ _ _ _ _ _ _ Hs Ha)|]. apply G.
Qed.

Lemma stagnation_not_below_static_witness :
  exists st,
    aerodynamic_state (VFloat (-100)) (VFloat 1) "TAS" (AtmState sea_level) = Ok st
    /\ all_elements (fun pt => p0 <= pt) (stagnation_pressure st).
Proof.
  destruct sea_level_scalar as [a [mu [Hs _]]].
  destruct (stagnation_not_below_static (VFloat (-100)) 1 "TAS" sea_level
              rho0 a mu p0) as [st [E [_ [H _]]]].
  - cbn. auto.
  - exact Hs.
  - exact rho0_pos.
  - reflexivity.
  - exists st. now split.
Defined.

(** * cli.py

    The computation of the two commands of [main]: the conversion of the
    altitude to metres and the calls of the library.  The parsing of the
    arguments and the printing of the fields are left out; [argparse] admits
    only the listed choices for the unit, the altitude type and the speed
    type. *)

Definition FT_TO_M : R := 0.3048.

(** [alt_m = args.altitude * (FT_TO_M if args.units == "ft" else 1.0)]. *)
Definition cli_alt_m (altitude : R) (units : string) : R :=
  altitude * (if (units =? "ft")%string then FT_TO_M else 1.0).

(** The [isa] command. *)
Definition cli_isa (altitude : R) (type units : string) : result ISAState :=
  let alt_m := cli_alt_m altitude units in
  isa_atmosphere (VFloat alt_m) (type =? "geometric")%string.

(** The [aero] command. *)
Definition cli_aero (speed : R) (speed_type : string) (altitude : R)
    (altitude_type altitude_units : string) (char_len : R)
    : result AerodynamicState :=
  let alt_m := cli_alt_m altitude altitude_units in
  atm_state <- isa_atmosphere (VFloat alt_m) (altitude_type =? "geometric")%string ;;
  aerodynamic_state (VFloat speed) (VFloat char_len) speed_type (AtmState atm_state).

(** ** The library calls composed *)

Lemma point_rho_le_rho0 (h : R) : in_range h -> 0 < point_rho h <= rho0.
Proof.
  unfold in_range. intros Hh. split; [now apply point_fields_pos|].
  rewrite <- (proj1 constants_sea_level_values).
  destruct (Req_dec h 0) as [->|Hne]; [lra|].
  left. apply point_rho_decreasing; lra.
Qed.

Lemma query_scalar_atmosphere (x : R) (g : bool) :
  scalar_atmosphere (point_state g (VFloat x))
    (point_rho (H_of g x)) (point_a (H_of g x))
    (point_mu (H_of g x)) (point_p (H_of g x)).
Proof. repeat split. Qed.

(** X14.  The computation of the [aero] command can fail in one way only.
    For a speed type among the choices it fails with [OutOfRange] when the
    altitude, converted to metres and to geopotential altitude, is outside
    [0, 32000]; otherwise it returns a state: the density of an atmosphere in
    range is positive, so no division fails, and all six fields are
    scalar-shaped.  Feet are converted by the factor 0.3048.  (A geometric
    altitude is not [-R_EARTH]; the printing of the state is not part of the
    statement.) *)
Theorem cli_aero_fails_only_out_of_range (speed : R) (speed_type : string)
    (altitude : R) (altitude_type altitude_units : string) (char_len : R) :
  In speed_type allowed_speed_types ->
  conversion_defined (altitude_type =? "geometric")%string
    (VFloat (cli_alt_m altitude altitude_units)) ->
  let H := H_of (altitude_type =? "geometric")%string
             (cli_alt_m altitude altitude_units) in
  (~ in_range H ->
     cli_aero speed speed_type altitude altitude_type altitude_units char_len
     = Err OutOfRange)
  /\ (in_range H ->
      exists st,
        cli_aero speed speed_type altitude altitude_type altitude_units char_len
        = Ok st
        /\ vshape (TAS st) = [] /\ vshape (EAS st) = [] /\ vshape (mach st) = []
        /\ vshape (reynolds st) = [] /\ vshape (dynamic_pressure st) = []
        /\ vshape (stagnation_pressure st) = []).
Proof.
  intros Hin _ H. unfold cli_aero. cbv zeta. fold H. split.
  - intros Hn. apply isa_atmosphere_scalar_error in Hn. now rewrite Hn.
  - intros Hr. rewrite (isa_atmosphere_scalar _ _ Hr). cbn [bind].
    pose proof (query_scalar_atmosphere (cli_alt_m altitude altitude_units)
                  (altitude_type =? "geometric")%string) as Hs.
    fold H in Hs.
    pose proof (point_rho_le_rho0 H Hr) as [Hpos _].
    destruct Hin as [<-|[<-|[<-|[]]]]; eexists.
    + split; [exact (aerodynamic_state_tas _ _ _ _ _ _ _ Hs (wf_asarray_float speed))|].
      repeat split.
    + split; [apply (aerodynamic_state_eas _ _ _ _ _ _ _ Hs); [lra|apply wf_asarray_float]|].
      repeat split.
    + split; [exact (aerodynamic_state_mach _ _ _ _ _ _ _ Hs (wf_asarray_float speed))|].
      repeat split.
Qed.

Lemma cli_aero_fails_only_out_of_range_witness :
  cli_aero 100 "EAS" 110000 "geopotential" "ft" 1 = Err OutOfRange
  /\ exists st, cli_aero 100 "EAS" 100000 "geopotential" "ft" 1 = Ok st.
Proof.
  split.
  - apply (cli_aero_fails_only_out_of_range 100 "EAS" 110000 "geopotential" "ft" 1).
    + cbn. auto.
    + intros G. cbn in G. discriminate G.
    + cbn. unfold cli_alt_m, FT_TO_M, in_range. cbn. lra.
  - destruct (cli_aero_fails_only_out_of_range 100 "EAS" 100000 "geopotential" "ft" 1)
      as [_ H].
    + cbn. auto.
    + intros G. cbn in G. discriminate G.
    + destruct H as [st [E _]].
      * cbn. unfold cli_alt_m, FT_TO_M, in_range. cbn. lra.
      * now exists st.
Defined.

(** X15.  In the standard atmosphere the equivalent airspeed is never above
    the true airspeed: for a TAS input at the state of an altitude in range,
    every EAS element of a speed that is not negative is at most its TAS
    element (the density is at most the sea-level density). *)
Theorem eas_not_above_tas (altitude : R) (geometric : bool) (speed : value) (L : R) :
  conversion_defined geometric (VFloat altitude) ->
  in_range (H_of geometric altitude) ->
  wf_array (np_asarray speed) ->
  exists atm st,
    isa_atmosphere (VFloat altitude) geometric = Ok atm
    /\ aerodynamic_state speed (VFloat L) "TAS" (AtmState atm) = Ok st
    /\ Forall2 (fun eas tas => 0 <= tas -> 0 <= eas <= tas)
               (data (np_asarray (EAS st))) (data (np_asarray (TAS st))).
Proof.
  intros _ Hr Ha.
  exists (point_state geometric (VFloat altitude)). eexists.
  split; [now apply isa_atmosphere_scalar|].
  split; [exact (aerodynamic_state_tas _ _ _ _ _ _ _
                   (query_scalar_atmosphere altitude geometric) Ha)|].
  cbn [derived_fields EAS TAS np_asarray nd_map data].
  pose proof (point_rho_le_rho0 _ Hr) as [Hpos Hle].
  pose proof rho0_pos as H0.
  assert (Hs : 0 <= sqrt (point_rho (H_of geometric altitude) / rho0) <= 1).
  { split; [apply sqrt_pos|].
    rewrite <- sqrt_1. apply sqrt_le_1_alt.
    apply Rmult_le_reg_r with rho0; [exact H0|].
    replace (point_rho (H_of geometric altitude) / rho0 * rho0)
      with (point_rho (H_of geometric altitude)) by (field; lra).
    lra. }
  induction (data (np_asarray speed)) as [|t d IH]; cbn; constructor; [|exact IH].
  intros Ht. nra.
Qed.

Lemma eas_not_above_tas_witness :
  exists atm st,
    isa_atmosphere (VFloat 10000) false = Ok atm
    /\ aerodynamic_state (VFloat 200) (VFloat 1) "TAS" (AtmState atm) = Ok st.
Proof.
  destruct (eas_not_above_tas 10000 false (VFloat 200) 1) as [atm [st [E1 [E2 _]]]].
  - intros G. discriminate G.
  - cbn. unfold in_range. lra.
  - reflexivity.
  - exists atm, st. now split.
Defined.

(** ** A sequence of states and a state of arrays *)

Lemma np_array_list_floats (xs : list R) :
  np_array_list (map VFloat xs) = Ok (mk_ndarray [length xs] xs).
Proof.
  destruct xs as [|x xs]; [reflexivity|].
  cbn [map np_array_list].
  assert (E : forallb (fun w => if list_eq_dec Nat.eq_dec (vshape w) (vshape (VFloat x))
                                then true else false) (map VFloat xs) = true).
  { apply forallb_forall. intros w Hw. apply in_map_iff in Hw as [y [<- _]].
    cbn. now destruct (list_eq_dec Nat.eq_dec [] []). }
  rewrite E. cbn [vshape np_asarray nd_scalar shape]. f_equal. f_equal.
  - cbn. now rewrite length_map.
  - change (VFloat x :: map VFloat xs) with (map VFloat (x :: xs)).
    induction (x :: xs) as [|y ys IH]; cbn; [reflexivity|]. now rewrite IH.
Qed.

(** X16.  The two ways of passing several atmosphere states agree: the list
    of the states of scalar queries at altitudes [hs] and the single state of
    the query on the one-dimensional array [hs] give the same result of
    [aerodynamic_state], success or failure, for every speed, characteristic
    length and speed type. *)
Theorem state_list_as_array (hs : list R) (geometric : bool)
    (speed L : value) (speed_type : string) :
  conversion_defined geometric (VArr (mk_ndarray [length hs] hs)) ->
  Forall in_range (map (H_of geometric) hs) ->
  exists l st,
    Forall2 (fun h s => isa_atmosphere (VFloat h) geometric = Ok s) hs l
    /\ isa_atmosphere (VArr (mk_ndarray [length hs] hs)) geometric = Ok st
    /\ aerodynamic_state speed L speed_type (AtmList l)
       = aerodynamic_state speed L speed_type (AtmState st).
Proof.
  intros _ Hall.
  exists (map (fun h => point_state geometric (VFloat h)) hs),
         (point_state geometric (VArr (mk_ndarray [length hs] hs))).
  split; [|split].
  - clear speed L speed_type. induction hs as [|h hs IH]; cbn; constructor.
    + apply isa_atmosphere_scalar. now inversion Hall.
    + apply IH. now inversion Hall.
  - now apply isa_atmosphere_array.
  - assert (E : forall f : R -> R,
               np_array_list
                 (map (fun h => VFloat (f (H_of geometric h))) hs)
               = Ok (nd_map (fun x => f (H_of geometric x))
                       (mk_ndarray [length hs] hs))).
    { intros f.
      rewrite <- (map_map (fun h => f (H_of geometric h)) VFloat).
      rewrite np_array_list_floats. unfold nd_map. cbn. now rewrite length_map. }
    eapply aerodynamic_state_list; rewrite ?map_map;
      cbn [point_state density speed_of_sound dynamic_viscosity pressure vmap];
      try apply E; reflexivity.
Qed.

Lemma state_list_as_array_witness :
  exists l st,
    Forall2 (fun h s => isa_atmosphere (VFloat h) false = Ok s) [0; 5000; 10000] l
    /\ isa_atmosphere (VArr (mk_ndarray [3%nat] [0; 5000; 10000])) false = Ok st
    /\ aerodynamic_state (VFloat 100) (VFloat 1) "TAS" (AtmList l)
       = aerodynamic_state (VFloat 100) (VFloat 1) "TAS" (AtmState st).
Proof.
  apply (state_list_as_array [0; 5000; 10000] false (VFloat 100) (VFloat 1) "TAS");
    [intros G; discriminate G|].
  cbn. unfold in_range. repeat constructor; lra.
Defined.

(** ** Division by zero *)

Definition no_zero_division {A : Type} (r : result A) : Prop :=
  r <> Err ZeroDivision.

Lemma bind_no_zero_division {A B : Type} (m : result A) (k : A -> result B) :
  no_zero_division m ->
  (forall a, m = Ok a -> no_zero_division (k a)) ->
  no_zero_division (bind m k).
Proof.
  unfold no_zero_division. intros Hm Hk. destruct m as [a|e]; cbn.
  - now apply Hk.
  - intros E. apply Hm. now injection E as ->.
Qed.

Lemma nd_binop_no_zero_division f a b : no_zero_division (nd_binop f a b).
Proof. unfold nd_binop. destruct (broadcast_shapes _ _); discriminate. Qed.

Lemma py_binop_no_zero_division f a b : no_zero_division (py_binop f a b).
Proof.
  destruct a as [x|a], b as [y|b]; cbn [py_binop];
    [discriminate| | |];
    (apply bind_no_zero_division; [apply nd_binop_no_zero_division|discriminate]).
Qed.

Lemma py_div_no_zero_division a b :
  np_isscalar a = false \/ b <> VFloat 0 -> no_zero_division (py_div a b).
Proof.
  intros H.
  destruct a as [x|a], b as [y|b]; cbn [py_div];
    try (apply bind_no_zero_division; [apply nd_binop_no_zero_division|discriminate]).
  destruct (Req_dec_T y 0) as [->|Hy]; [|discriminate].
  destruct H as [H|H]; [discriminate H|contradiction].
Qed.

Lemma py_binop_array_result f a b r :
  py_binop f a b = Ok r ->
  np_isscalar a = false \/ np_isscalar b = false -> np_isscalar r = false.
Proof.
  destruct a as [x|a], b as [y|b]; cbn [py_binop np_isscalar]; intros E H;
    [destruct H; discriminate| | |];
    (destruct (nd_binop _ _ _); cbn in E; [now injection E as <-|discriminate]).
Qed.

Lemma np_array_list_no_zero_division vs : no_zero_division (np_array_list vs).
Proof.
  unfold np_array_list. destruct vs; [discriminate|].
  destruct (forallb _ _); discriminate.
Qed.

Lemma value_eq_zero (v : value) : v = VFloat 0 \/ v <> VFloat 0.
Proof.
  destruct v as [x|a]; [|right; discriminate].
  destruct (Req_dec x 0) as [->|H]; [now left|right].
  intros E. now injection E.
Qed.

(** The rest of the computation once TAS and EAS are there, TAS being a
    NumPy object. *)
Lemma tail_no_zero_division (tas eas rho sos mu p L : value) :
  np_isscalar tas = false ->
  no_zero_division
    (mach <- py_div tas sos ;;
     t1 <- py_mul tas rho ;;
     t2 <- py_mul t1 (VArr (np_asarray L)) ;;
     reynolds <- py_div t2 mu ;;
     h <- py_mul (VFloat 0.5) rho ;;
     dynamic_pressure <- py_mul h (np_square tas) ;;
     stagnation_pressure <- py_add dynamic_pressure p ;;
     Ok (mk_AerodynamicState tas eas mach reynolds dynamic_pressure
           stagnation_pressure)).
Proof.
  intros Ht.
  apply bind_no_zero_division; [apply py_div_no_zero_division; now left|].
  intros m _.
  apply bind_no_zero_division; [apply py_binop_no_zero_division|]. intros t1 _.
  apply bind_no_zero_division; [apply py_binop_no_zero_division|]. intros t2 E2.
  apply py_binop_array_result in E2; [|now right].
  apply bind_no_zero_division; [apply py_div_no_zero_division; now left|].
  intros re _.
  apply bind_no_zero_division; [apply py_binop_no_zero_division|]. intros h _.
  apply bind_no_zero_division; [apply py_binop_no_zero_division|]. intros q _.
  apply bind_no_zero_division; [apply py_binop_no_zero_division|]. intros sp _.
  discriminate.
Qed.

Lemma core_no_zero_division (speed L rho sos mu p : value) (speed_type : string) :
  (speed_type = "EAS"%string -> rho <> VFloat 0) ->
  no_zero_division
    ('(TAS, EAS) <-
       match speed_branch speed_type with
       | BrTAS =>
           r <- py_div rho (VFloat rho0) ;;
           EAS <- py_mul (VArr (np_asarray speed)) (np_sqrt r) ;;
           Ok (VArr (np_asarray speed), EAS)
       | BrEAS =>
           r <- py_div (VFloat rho0) rho ;;
           TAS <- py_mul (VArr (np_asarray speed)) (np_sqrt r) ;;
           Ok (TAS, VArr (np_asarray speed))
       | BrMach =>
           TAS <- py_mul (VArr (np_asarray speed)) sos ;;
           r <- py_div rho (VFloat rho0) ;;
           EAS <- py_mul TAS (np_sqrt r) ;;
           Ok (TAS, EAS)
       | BrElse =>
           Ok (VArr (mk_ndarray [1%nat] [0]), VArr (mk_ndarray [1%nat] [0]))
       end ;;
     mach <- py_div TAS sos ;;
     t1 <- py_mul TAS rho ;;
     t2 <- py_mul t1 (VArr (np_asarray L)) ;;
     reynolds <- py_div t2 mu ;;
     h <- py_mul (VFloat 0.5) rho ;;
     dynamic_pressure <- py_mul h (np_square TAS) ;;
     stagnation_pressure <- py_add dynamic_pressure p ;;
     Ok (mk_AerodynamicState TAS EAS mach reynolds dynamic_pressure
           stagnation_pressure)).
Proof.
  intros Hrho.
  assert (Hr0 : VFloat rho0 <> VFloat 0).
  { intros E. injection E as E. pose proof rho0_pos. lra. }
  apply bind_no_zero_division.
  - unfold speed_branch.
    destruct (speed_type =? "TAS")%string eqn:A.
    { apply bind_no_zero_division; [apply py_div_no_zero_division; now right|].
      intros r _.
      apply bind_no_zero_division; [apply py_binop_no_zero_division|]. discriminate. }
    destruct (speed_type =? "EAS")%string eqn:B.
    { apply String.eqb_eq in B.
      apply bind_no_zero_division;
        [apply py_div_no_zero_division; right; now apply Hrho|].
      intros r _.
      apply bind_no_zero_division; [apply py_binop_no_zero_division|]. discriminate. }
    destruct (speed_type =? "mach")%string eqn:C; [|discriminate].
    apply bind_no_zero_division; [apply py_binop_no_zero_division|]. intros t _.
    apply bind_no_zero_division; [apply py_div_no_zero_division; now right|].
    intros r _.
    apply bind_no_zero_division; [apply py_binop_no_zero_division|]. discriminate.
  - intros [tas eas] E.
    apply tail_no_zero_division.
    unfold speed_branch in E.
    destruct (speed_type =? "TAS")%string.
    { destruct (py_div rho (VFloat rho0)); [|discriminate E]. cbn [bind] in E.
      destruct (py_mul _ _); [|discriminate E]. now injection E as <- _. }
    destruct (speed_type =? "EAS")%string.
    { destruct (py_div (VFloat rho0) rho) as [r|]; [|discriminate E].
      cbn [bind] in E.
      destruct (py_mul (VArr (np_asarray speed)) (np_sqrt r)) eqn:M;
        [|discriminate E].
      injection E as <- _.
      apply (py_binop_array_result _ _ _ _ M). now left. }
    destruct (speed_type =? "mach")%string.
    { destruct (py_mul (VArr (np_asarray speed)) sos) as [t|] eqn:M;
        [|discriminate E].
      cbn [bind] in E.
      destruct (py_div rho (VFloat rho0)) as [r|]; [|discriminate E].
      cbn [bind] in E.
      destruct (py_mul t (np_sqrt r)); [|discriminate E]. injection E as <- _.
      apply (py_binop_array_result _ _ _ _ M). now left. }
    now injection E as <- _.
Qed.

(** X17.  For a speed and a characteristic length given as floats or arrays
    of floats, [aerodynamic_state] divides two Python floats only in
    [rho0 / rho]: it raises [ZeroDivisionError] exactly for an EAS input at a
    single state whose density is the Python float 0.  TAS and Mach inputs,
    the default atmosphere and a sequence of states never raise it (NumPy's
    own divisions of float arrays do not raise).  (A Python int too large for
    a 64-bit integer is outside the statement: [np.array] keeps it in an
    object array, whose divisions are Python's own.) *)
Theorem zero_division_only_for_eas (speed L : value) (speed_type : string)
    (atmosphere_state : atmosphere_arg) :
  aerodynamic_state speed L speed_type atmosphere_state = Err ZeroDivision
  <-> speed_type = "EAS"%string
      /\ exists s, atmosphere_state = AtmState s /\ density s = VFloat 0.
Proof.
  split.
  - intros E.
    destruct (string_dec speed_type "EAS") as [He|He],
             atmosphere_state as [|s|l].
    + exfalso. revert E. fold (@no_zero_division AerodynamicState).
      unfold aerodynamic_state. rewrite sea_level_atmosphere_ok. cbn [bind].
      destruct (negb _); [discriminate|]. cbn [bind].
      destruct sea_level_fields as [a [m [Fr _]]]. rewrite Fr.
      apply core_no_zero_division. intros _ Hc. injection Hc as Hc.
      pose proof rho0_pos. lra.
    + destruct (value_eq_zero (density s)) as [Hz|Hz]; [eauto|].
      exfalso. revert E. fold (@no_zero_division AerodynamicState).
      unfold aerodynamic_state. rewrite sea_level_atmosphere_ok. cbn [bind].
      destruct (negb _); [discriminate|]. cbn [bind].
      destruct sea_level_fields as [a [m [Fr _]]]. rewrite Fr.
      apply core_no_zero_division. intros _. exact Hz.
    + exfalso. revert E. fold (@no_zero_division AerodynamicState).
      unfold aerodynamic_state. rewrite sea_level_atmosphere_ok. cbn [bind].
      destruct (negb _); [discriminate|].
      destruct sea_level_fields as [a [m [Fr _]]]. rewrite Fr.
      apply bind_no_zero_division.
      * repeat (apply bind_no_zero_division;
                [apply np_array_list_no_zero_division|intros ? _]).
        discriminate.
      * intros [[[rho sos] mu] p] E.
        apply core_no_zero_division. intros _.
        destruct (np_array_list (map density l)); [|discriminate E].
        cbn [bind] in E.
        destruct (np_array_list (map speed_of_sound l)); [|discriminate E].
        cbn [bind] in E.
        destruct (np_array_list (map dynamic_viscosity l)); [|discriminate E].
        cbn [bind] in E.
        destruct (np_array_list (map pressure l)); [|discriminate E].
        cbn [bind] in E. injection E as <- _ _ _. discriminate.
    + exfalso. revert E. fold (@no_zero_division AerodynamicState).
      unfold aerodynamic_state. rewrite sea_level_atmosphere_ok. cbn [bind].
      destruct (negb _); [discriminate|]. cbn [bind].
      destruct sea_level_fields as [a [m [Fr _]]]. rewrite Fr.
      apply core_no_zero_division. intros Hc. contradiction.
    + exfalso. revert E. fold (@no_zero_division AerodynamicState).
      unfold aerodynamic_state. rewrite sea_level_atmosphere_ok. cbn [bind].
      destruct (negb _); [discriminate|]. cbn [bind].
      destruct sea_level_fields as [a [m [Fr _]]]. rewrite Fr.
      apply core_no_zero_division. intros Hc. contradiction.
    + exfalso. revert E. fold (@no_zero_division AerodynamicState).
      unfold aerodynamic_state. rewrite sea_level_atmosphere_ok. cbn [bind].
      destruct (negb _); [discriminate|].
      destruct sea_level_fields as [a [m [Fr _]]]. rewrite Fr.
      apply bind_no_zero_division.
      * repeat (apply bind_no_zero_division;
                [apply np_array_list_no_zero_division|intros ? _]).
        discriminate.
      * intros [[[rho sos] mu] p] _.
        apply core_no_zero_division. intros Hc. contradiction.
  - intros [-> [s [-> Hz]]]. now apply eas_input_zero_density.
Qed.

(** ** The range check on binary64 numbers *)

Module Binary64Range.
Import Floats.
Import Binary64.
Local Open Scope float_scope.
#[local] Set Warnings "-inexact-float".

Lemma SFcompare_antisym (x y : SpecFloat.spec_float) :
  SpecFloat.SFcompare y x = option_map CompOpp (SpecFloat.SFcompare x y).
Proof.
  destruct x as [a|a| |a m e], y as [b|b| |b n f]; cbn;
    try reflexivity; try (now destruct a, b); try (now destruct a);
    try (now destruct b).
  destruct a, b; cbn; try reflexivity.
  - rewrite (Z.compare_antisym e f).
    destruct (e ?= f)%Z; cbn; try reflexivity.
    pose proof (Pos.compare_cont_antisym m n Eq) as P. cbn in P.
    rewrite <- P. now destruct (Pos.compare_cont Eq m n).
  - rewrite (Z.compare_antisym e f).
    destruct (e ?= f)%Z; cbn; try reflexivity.
    pose proof (Pos.compare_cont_antisym m n Eq) as P. cbn in P.
    rewrite <- P. now destruct (Pos.compare_cont Eq m n).
Qed.

Lemma SFcompare_nan (x y : SpecFloat.spec_float) :
  SpecFloat.SFeqb x x = true -> SpecFloat.SFeqb y y = true ->
  SpecFloat.SFcompare x y <> None.
Proof.
  unfold SpecFloat.SFeqb.
  destruct x as [a|a| |a m e], y as [b|b| |b n f]; cbn; try discriminate;
    try (destruct a; discriminate); try (destruct b; discriminate);
    try (destruct a, b; discriminate).
Qed.

Lemma SFcompare_of_nan_l (x y : SpecFloat.spec_float) :
  SpecFloat.SFeqb x x = false -> SpecFloat.SFcompare x y = None.
Proof.
  unfold SpecFloat.SFeqb.
  destruct x as [a|a| |a m e]; cbn; try reflexivity.
  - discriminate.
  - now destruct a.
  - rewrite Z.compare_refl, Pos.compare_cont_refl. now destruct a.
Qed.

(** For numbers, [x < y] is the negation of [y <= x]. *)
Lemma ltb_negb_leb (x y : float) :
  (x =? x) = true -> (y =? y) = true -> (x <? y) = negb (y <=? x).
Proof.
  rewrite !eqb_spec, ltb_spec, leb_spec. intros Hx Hy.
  pose proof (SFcompare_nan _ _ Hx Hy) as Hn.
  unfold SpecFloat.SFltb, SpecFloat.SFleb.
  rewrite (SFcompare_antisym (Prim2SF x) (Prim2SF y)).
  destruct (SpecFloat.SFcompare (Prim2SF x) (Prim2SF y)) as [[| |]|];
    try reflexivity.
  contradiction.
Qed.

(** Every comparison with a NaN is false. *)
Lemma compare_nan (x y : float) :
  (x =? x) = false ->
  (x <? y) = false /\ (y <? x) = false /\ (x <=? y) = false /\ (y <=? x) = false.
Proof.
  rewrite eqb_spec, !ltb_spec, !leb_spec. intros Hx.
  unfold SpecFloat.SFltb, SpecFloat.SFleb.
  rewrite (SFcompare_antisym (Prim2SF x) (Prim2SF y)).
  now rewrite (SFcompare_of_nan_l _ (Prim2SF y) Hx).
Qed.

(** X18.  On binary64 numbers the range check of [isa_atmosphere],
    [H < 0 or H > 32000], refuses exactly the numbers (infinities included)
    outside [0, 32000].  A NaN passes it, since every comparison with a NaN
    is false; no layer condition holds for it either, so [np.select] gives
    it its default, layer 0, and the state is computed by the gradient
    formula of the first layer at the NaN. *)
Theorem range_check_binary64 (pow : float -> float -> float)
    (exp : float -> float) (H : float) :
  (isa_point pow exp H = None
   <-> (H =? H) = true /\ ((0 <=? H) && (H <=? 32000.0)) = false)
  /\ ((H =? H) = false ->
      isa_point pow exp H = Some (_isa_gradient pow H 0.0 T0 p0 (-0.0065))).
Proof.
  assert (N0 : (0 =? 0) = true) by (vm_compute; reflexivity).
  assert (N1 : (32000.0 =? 32000.0) = true) by (vm_compute; reflexivity).
  destruct (H =? H) eqn:HH.
  - split; [|discriminate].
    unfold isa_point.
    rewrite (ltb_negb_leb H 0 HH N0), (ltb_negb_leb 32000.0 H N1 HH).
    destruct (0 <=? H), (H <=? 32000.0); cbn [negb orb andb];
      split; try discriminate; try (intros [_ E]; discriminate E);
      try (intros _; now split); try reflexivity.
  - destruct (compare_nan H 0 HH) as [A _].
    destruct (compare_nan H 32000.0 HH) as [_ [B _]].
    destruct (compare_nan H 11000.0 HH) as [C [_ [_ D]]].
    destruct (compare_nan H 20000.0 HH) as [_ [_ [_ E]]].
    assert (S : isa_point pow exp H
                = Some (_isa_gradient pow H 0.0 T0 p0 (-0.0065))).
    { unfold isa_point. rewrite A, B, C, D, E. reflexivity. }
    split; [|intros _; exact S].
    rewrite S. split; [discriminate|intros [F _]; discriminate F].
Qed.

End Binary64Range.

(** ** The altitude conversion on binary64 numbers *)

Module Binary64Altitude.
Import Floats.
Import Binary64.
Local Open Scope float_scope.
#[local] Set Warnings "-inexact-float".

(** As computed, the conversion is increasing only up to rounding: two
    neighbouring altitudes near 31 km are converted out of order, and an
    altitude of 1e305 m overflows in the product [R_EARTH * z]. *)
Lemma conversion_rounds_binary64 :
  (exists z1 z2 : float,
     (0 <=? z1) = true /\ (z1 <? z2) = true
     /\ (geometric2geopotential z2 <? geometric2geopotential z1) = true)
  /\ geometric2geopotential 1e305 = infinity.
Proof.
  split; [|vm_compute; reflexivity].
  exists 31000.000000035856, (next_up 31000.000000035856).
  repeat split; vm_compute; reflexivity.
Qed.

(** At [z = -R_EARTH] the quotient is minus infinity, which the range check
    refuses. *)
Lemma pole_refused_binary64 (pow : float -> float -> float)
    (exp : float -> float) :
  geometric2geopotential (- R_EARTH) = neg_infinity
  /\ isa_point pow exp (geometric2geopotential (- R_EARTH)) = None.
Proof. split; vm_compute; reflexivity. Qed.

(** An infinite geometric altitude is converted to a NaN ([inf / inf]), which
    the range check lets pass: the first layer's formula is evaluated at the
    NaN. *)
Lemma infinite_altitude_accepted_binary64 (pow : float -> float -> float)
    (exp : float -> float) (z : float) :
  z = infinity \/ z = neg_infinity ->
  geometric2geopotential z = nan
  /\ isa_point pow exp (geometric2geopotential z)
     = Some (_isa_gradient pow nan 0.0 T0 p0 (-0.0065)).
Proof. intros [->| ->]; split; vm_compute; reflexivity. Qed.

End Binary64Altitude.
